(** * Session authenticator of the Hono template: [authMiddleware]

    Shallow embedding of [src/middleware/auth.ts] together with the parts of
    [src/middleware/logger.ts], [src/modules/auth/auth.utils.ts] and
    [src/modules/auth/auth.controller.ts] it relies on.

    The middleware is effectful TypeScript: it reads cookies, calls
    [jsonwebtoken], writes a [Set-Cookie] header, stores [userId] on the
    request context, logs to the console and to files, and awaits the
    downstream handler [next] inside [try] blocks.  It is embedded in a
    state-and-exception monad over an explicit [World]. *)

From stdpp Require Import base option list strings gmap.
From Stdlib Require Import Ascii ZArith Lia.

(** ** JavaScript values *)

(** What a [throw] (or a rejected promise) carries: an [Error] with its
    message, a [TypeError] with its message (what [JSON.stringify] throws),
    or a value that is not an instance of [Error].  The middleware only asks
    [error instanceof Error ? error.message : "Unknown error"]. *)
Inductive Thrown : Type :=
| ErrorObject (message : string)
| TypeError (message : string)
| OtherValue.

Inductive Outcome (A : Type) : Type :=
| Returns (a : A)
| Throws (e : Thrown).
Arguments Returns {A} a.
Arguments Throws {A} e.

Definition error_message (e : Thrown) : string :=
  match e with
  | ErrorObject m => m
  | TypeError m => m
  | OtherValue => "Unknown error"
  end.

(** Truthiness of a [string | undefined]: [undefined] and [""] are falsy. *)
Definition truthy (v : option string) : bool :=
  match v with
  | Some (String _ _) => true
  | Some EmptyString => false
  | None => false
  end.

(** [a || b] where [a : string | undefined] and [b : string]. *)
Definition js_or (a : option string) (b : string) : string :=
  match a with
  | Some (String c s) => String c s
  | _ => b
  end.

(** ** Cookies ([hono/cookie], [auth.utils.ts]) *)

(** [CookieOptions] of hono: every attribute is optional. *)
Record CookieOptions : Type := {
  domain : option string;
  expires : option Z;
  httpOnly : option bool;
  maxAge : option Z;
  path : option string;
  secure : option bool;
  sameSite : option string;
  partitioned : option bool;
  priority : option string;
  prefix : option string
}.

(** One [Set-Cookie] header appended to the response. *)
Record Cookie : Type := {
  cookie_name : string;
  cookie_value : string;
  cookie_opts : CookieOptions
}.

Module cookieOptions.
Definition access : CookieOptions :=
  {| domain := None; expires := None; httpOnly := Some true; maxAge := None;
     path := Some "/"; secure := Some true; sameSite := Some "strict";
     partitioned := None; priority := None; prefix := None |}.
Definition refresh : CookieOptions :=
  {| domain := None; expires := None; httpOnly := Some true; maxAge := None;
     path := Some "/"; secure := Some true; sameSite := Some "strict";
     partitioned := None; priority := None; prefix := None |}.
End cookieOptions.

(** ** The request, the process and the host *)

Record HonoRequest : Type := {
  req_cookies : gmap string string;   (* parsed [Cookie] header *)
  req_headers : gmap string string;
  req_method : string;
  req_url : string
}.

(** [process.env].  The two secrets are read with [as string] (or [!]).  A
    variable the deployment leaves unset is represented by [""]:
    jsonwebtoken tests the secret for truthiness only, and refuses both. *)
Record ProcessEnv : Type := {
  ACCESS_TOKEN_SECRET : string;
  REFRESH_TOKEN_SECRET : string;
  NODE_ENV : option string
}.

(** What the runtime supplies during one request.  The request is handled at
    one instant: every [Date.now()] and [new Date()] in it reads [Date_now]
    (milliseconds).  [appendFileSync_ok] tells for which paths the append
    succeeds; elsewhere [appendFileSync] throws. *)
Record Host : Type := {
  env : ProcessEnv;
  Date_now : Z;
  toISOString : Z -> string;
  crypto_randomUUID : string;
  process_cwd : string;
  appendFileSync_ok : string -> bool
}.

(** ** [jsonwebtoken]

    The library is a dependency of the repository.  Its two entry points are
    kept abstract: [verify] returns the decoded payload or throws, and
    [sign] (called with a payload object, a string secret and [expiresIn])
    returns the token or throws.  Three laws are recorded: [verify] refuses
    a missing token ("jwt must be provided"); [sign] refuses a missing
    secret ("secretOrPrivateKey must have a value"); and [sign] checks its
    arguments before it reads the time, so that an exception of [sign] does
    not depend on the clock.  The clock argument is the library's
    [Math.floor(Date.now() / 1000)]. *)

Record JwtPayload : Type := { jwt_id : string }.          (* [{ id: string }] *)
Record SignOptions : Type := { expiresIn : string }.

Class Jsonwebtoken : Type := {
  jwt_verify : string -> string -> Z -> Outcome JwtPayload;
  jwt_sign : JwtPayload -> string -> SignOptions -> Z -> Outcome string;
  jwt_must_be_provided : forall secret clock,
    jwt_verify "" secret clock = Throws (ErrorObject "jwt must be provided");
  jwt_secret_must_have_value : forall payload options clock,
    jwt_sign payload "" options clock
      = Throws (ErrorObject "secretOrPrivateKey must have a value");
  jwt_sign_checks_first : forall payload secret options clock clock' e,
    jwt_sign payload secret options clock = Throws e ->
    jwt_sign payload secret options clock' = Throws e
}.

Inductive JwtCall : Type :=
| VerifyCall (token secret : string)
| SignCall (payload : JwtPayload) (secret : string) (options : SignOptions).

(** ** Logger data ([logger.ts]) *)

Inductive LogLevel : Type := lvl_info | lvl_warn | lvl_error | lvl_debug.

Definition level_name (l : LogLevel) : string :=
  match l with
  | lvl_info => "info"
  | lvl_warn => "warn"
  | lvl_error => "error"
  | lvl_debug => "debug"
  end.

Definition level_toUpperCase (l : LogLevel) : string :=
  match l with
  | lvl_info => "INFO"
  | lvl_warn => "WARN"
  | lvl_error => "ERROR"
  | lvl_debug => "DEBUG"
  end.

Record RequestContext : Type := {
  requestId : string;
  ip : string;
  userAgent : string;
  method : string;
  url : string;
  startTime : Z
}.

(** [data] is a flat object of strings at every call site of the middleware. *)
Definition LogData : Type := list (string * string).

Record LogEntry : Type := {
  timestamp : string;
  level : LogLevel;
  message : string;
  data : LogData;
  meta : option RequestContext        (* the fields spread by [...meta] *)
}.

Inductive ConsoleLine : Type :=
| console_log (text : string) (d : LogData)
| console_error (text : string).

(** ** The world one request runs in *)

Record Response : Type := {
  status : Z;
  body : list (string * string)       (* a flat JSON object *)
}.

Record World : Type := {
  ctx_userId : option string;                  (* [c.get("userId")] *)
  ctx_requestContext : option RequestContext;  (* [c.get("requestContext")] *)
  res_setCookie : list Cookie;                 (* [Set-Cookie] headers so far *)
  fs : gmap string (list LogEntry);            (* files, as the lines appended *)
  console : list ConsoleLine;
  jwt_calls : list JwtCall;                    (* ghost: calls into jsonwebtoken *)
  next_calls : list (option string)            (* ghost: [userId] seen by each [next()] *)
}.

Definition with_userId (v : option string) (w : World) : World :=
  {| ctx_userId := v; ctx_requestContext := ctx_requestContext w;
     res_setCookie := res_setCookie w; fs := fs w; console := console w;
     jwt_calls := jwt_calls w; next_calls := next_calls w |}.

Definition with_requestContext (v : option RequestContext) (w : World) : World :=
  {| ctx_userId := ctx_userId w; ctx_requestContext := v;
     res_setCookie := res_setCookie w; fs := fs w; console := console w;
     jwt_calls := jwt_calls w; next_calls := next_calls w |}.

Definition with_setCookie (v : list Cookie) (w : World) : World :=
  {| ctx_userId := ctx_userId w; ctx_requestContext := ctx_requestContext w;
     res_setCookie := v; fs := fs w; console := console w;
     jwt_calls := jwt_calls w; next_calls := next_calls w |}.

Definition with_fs (v : gmap string (list LogEntry)) (w : World) : World :=
  {| ctx_userId := ctx_userId w; ctx_requestContext := ctx_requestContext w;
     res_setCookie := res_setCookie w; fs := v; console := console w;
     jwt_calls := jwt_calls w; next_calls := next_calls w |}.

Definition with_console (v : list ConsoleLine) (w : World) : World :=
  {| ctx_userId := ctx_userId w; ctx_requestContext := ctx_requestContext w;
     res_setCookie := res_setCookie w; fs := fs w; console := v;
     jwt_calls := jwt_calls w; next_calls := next_calls w |}.

Definition with_jwt_calls (v : list JwtCall) (w : World) : World :=
  {| ctx_userId := ctx_userId w; ctx_requestContext := ctx_requestContext w;
     res_setCookie := res_setCookie w; fs := fs w; console := console w;
     jwt_calls := v; next_calls := next_calls w |}.

Definition with_next_calls (v : list (option string)) (w : World) : World :=
  {| ctx_userId := ctx_userId w; ctx_requestContext := ctx_requestContext w;
     res_setCookie := res_setCookie w; fs := fs w; console := console w;
     jwt_calls := jwt_calls w; next_calls := v |}.

(** ** The monad: state, and exceptions that keep the state reached *)

Definition M (A : Type) : Type := World -> Outcome A * World.

Definition ret {A} (a : A) : M A := fun w => (Returns a, w).

Definition throw {A} (e : Thrown) : M A := fun w => (Throws e, w).

Definition bind {A B} (m : M A) (k : A -> M B) : M B :=
  fun w =>
    match m w with
    | (Returns a, w') => k a w'
    | (Throws e, w') => (Throws e, w')
    end.

(** [try { body } catch (error) { handler }] *)
Definition try_catch {A} (body : M A) (handler : Thrown -> M A) : M A :=
  fun w =>
    match body w with
    | (Returns a, w') => (Returns a, w')
    | (Throws e, w') => handler e w'
    end.

Definition modify (f : World -> World) : M unit := fun w => (Returns tt, f w).

Definition gets {A} (f : World -> A) : M A := fun w => (Returns (f w), w).

Declare Scope js_scope.
Delimit Scope js_scope with js.
Notation "'let*' x ':=' m 'in' k" := (bind m (fun x => k))
  (at level 10, x name, m at level 100, k at level 200) : js_scope.
Notation "m ';;' k" := (bind m (fun _ => k))
  (at level 100, k at level 200, right associativity) : js_scope.
Local Open Scope js_scope.

(** ** [logger.ts]: the singleton [logger] *)

Section Logger.
Variable host : Host.
Variable req : HonoRequest.

(** [path.join] on two normalised segments. *)
Definition join (a b : string) : string := a +:+ "/" +:+ b.

(** [s.split("T")[0]] *)
Fixpoint split_T_0 (s : string) : string :=
  match s with
  | EmptyString => EmptyString
  | String c rest => if Ascii.eqb c "T"%char then EmptyString else String c (split_T_0 rest)
  end.

Definition new_Date_toISOString : string := toISOString host (Date_now host).

Definition logsDir : string := join (process_cwd host) "logs".

Definition req_header (name : string) : option string := req_headers req !! name.

Definition getRequestContext : M RequestContext :=
  let* existing := gets ctx_requestContext in
  match existing with
  | Some rc => ret rc
  | None =>
      let requestContext :=
        {| requestId := crypto_randomUUID host;
           ip := js_or (req_header "x-forwarded-for")
                       (js_or (req_header "x-real-ip") "unknown");
           userAgent := js_or (req_header "user-agent") "unknown";
           method := req_method req;
           url := req_url req;
           startTime := Date_now host |} in
      modify (with_requestContext (Some requestContext)) ;;
      ret requestContext
  end.

Definition formatLog (entry : LogEntry) : LogEntry :=
  {| timestamp := new_Date_toISOString; level := level entry;
     message := message entry; data := data entry; meta := meta entry |}.

Definition appendFileSync (filepath : string) (content : LogEntry) : M unit :=
  if appendFileSync_ok host filepath
  then modify (fun w =>
         with_fs (<[filepath := default [] (fs w !! filepath) ++ [content]]> (fs w)) w)
  else throw (ErrorObject "EACCES").

Definition console_print (line : ConsoleLine) : M unit :=
  modify (fun w => with_console (console w ++ [line]) w).

Definition log_filepath (lvl : LogLevel) : string :=
  let today := split_T_0 new_Date_toISOString in
  let filename := today +:+ "-" +:+ level_name lvl +:+ ".log" in
  join logsDir filename.

Definition writeToFile (lvl : LogLevel) (content : LogEntry) : M unit :=
  let filepath := log_filepath lvl in
  try_catch (appendFileSync filepath content)
            (fun _ => console_print (console_error "Failed to write to log file:")).

Definition esc : string := String "027"%char EmptyString.

Definition colors (lvl : LogLevel) : string :=
  match lvl with
  | lvl_info => esc +:+ "[36m"
  | lvl_warn => esc +:+ "[33m"
  | lvl_error => esc +:+ "[31m"
  | lvl_debug => esc +:+ "[35m"
  end.

Definition reset : string := esc +:+ "[0m".

Definition log (lvl : LogLevel) (msg : string) (d : LogData)
    (m : option RequestContext) : M unit :=
  let entry :=
    {| timestamp := new_Date_toISOString; level := lvl; message := msg;
       data := d; meta := m |} in
  let formattedMessage :=
    colors lvl +:+ "[" +:+ timestamp entry +:+ "] " +:+ level_toUpperCase lvl
      +:+ ": " +:+ msg +:+ reset in
  console_print (console_log formattedMessage d) ;;
  writeToFile lvl (formatLog entry) ;;
  writeToFile lvl_info (formatLog entry).

(** The three methods the middleware calls, always with the hono context
    as third argument, so [meta] is [getRequestContext(c)]. *)
Definition logger_info (msg : string) (d : LogData) : M unit :=
  let* m := getRequestContext in
  log lvl_info msg d (Some m).

Definition logger_warn (msg : string) (d : LogData) : M unit :=
  let* m := getRequestContext in
  log lvl_warn msg d (Some m).

Definition logger_debug (msg : string) (d : LogData) : M unit :=
  if bool_decide (NODE_ENV (env host) = Some "development")
  then let* m := getRequestContext in
       log lvl_debug msg d (Some m)
  else ret tt.
End Logger.

(** ** [auth.ts]: the middleware *)

(** How a [try] block or an [if] ends: with a [return], or by running on to
    the statement after it. *)
Inductive Flow : Type :=
| Return (r : option Response)
| FallThrough.

Section AuthMiddleware.
Context `{lib : Jsonwebtoken}.
Variable host : Host.
Variable req : HonoRequest.
(** The downstream chain behind [next]: whether its [k]-th invocation in
    this request resolves or rejects.  What the downstream does to the
    response is its own and is not recorded in [World]: the middleware
    never reads it back, and [res_setCookie] holds the cookies the
    middleware (and whoever ran before it) wrote. *)
Variable downstream : nat -> Outcome unit.

(** *** hono's context *)

Definition getCookie (name : string) : option string := req_cookies req !! name.

Definition setCookie (name value : string) (opt : CookieOptions) : M unit :=
  modify (fun w =>
    with_setCookie
      (res_setCookie w ++ [{| cookie_name := name; cookie_value := value; cookie_opts := opt |}])
      w).

Definition c_set_userId (v : string) : M unit := modify (with_userId (Some v)).

(** [c.json(body, status)]: the response is sent with the headers gathered
    on the context, that is with [res_setCookie]. *)
Definition c_json (b : list (string * string)) (st : Z) : M (option Response) :=
  ret (Some {| status := st; body := b |}).

(** [await next()]: resolves or rejects as the downstream chain decides. *)
Definition next : M unit :=
  fun w => (downstream (length (next_calls w)),
            with_next_calls (next_calls w ++ [ctx_userId w]) w).

(** *** calls into jsonwebtoken *)

Definition clockTimestamp : Z := (Date_now host / 1000)%Z.

Definition verify (token secret : string) : M JwtPayload :=
  fun w => (jwt_verify token secret clockTimestamp,
            with_jwt_calls (jwt_calls w ++ [VerifyCall token secret]) w).

Definition sign (payload : JwtPayload) (secret : string) (options : SignOptions) : M string :=
  fun w => (jwt_sign payload secret options clockTimestamp,
            with_jwt_calls (jwt_calls w ++ [SignCall payload secret options]) w).

(** [if (token) { ... }] *)
Definition when_truthy (v : option string) (k : string -> M Flow) : M Flow :=
  match v with
  | Some (String c s) => k (String c s)
  | _ => ret FallThrough
  end.

Definition Unauthorized : list (string * string) := [("error", "Unauthorized")].

Definition authMiddleware : M (option Response) :=
  let accessToken := getCookie "accessToken" in
  let refreshToken := getCookie "refreshToken" in
  (* No tokens at all *)
  if negb (truthy accessToken) && negb (truthy refreshToken) then
    logger_warn host req "Auth failed - No tokens provided" [] ;;
    c_json Unauthorized 401
  else
    (* Try access token first *)
    let* tried_access :=
      when_truthy accessToken (fun accessToken =>
        try_catch
          (let* decoded := verify accessToken (ACCESS_TOKEN_SECRET (env host)) in
           c_set_userId (jwt_id decoded) ;;
           next ;;
           ret (Return None))
          (fun error =>
             logger_debug host req "Access token invalid, attempting refresh"
               [("error", error_message error)] ;;
             ret FallThrough)) in
    match tried_access with
    | Return r => ret r
    | FallThrough =>
        (* Try refresh token *)
        let* tried_refresh :=
          when_truthy refreshToken (fun refreshToken =>
            try_catch
              (let* decoded := verify refreshToken (REFRESH_TOKEN_SECRET (env host)) in
               let* newAccessToken :=
                 sign {| jwt_id := jwt_id decoded |} (ACCESS_TOKEN_SECRET (env host))
                      {| expiresIn := "1h" |} in
               setCookie "accessToken" newAccessToken cookieOptions.access ;;
               c_set_userId (jwt_id decoded) ;;
               logger_info host req "Token refreshed successfully"
                 [("userId", jwt_id decoded)] ;;
               next ;;
               ret (Return None))
              (fun error =>
                 logger_warn host req "Auth failed - Invalid refresh token"
                   [("error", error_message error)] ;;
                 ret FallThrough)) in
        match tried_refresh with
        | Return r => ret r
        | FallThrough =>
            (* Both tokens failed *)
            logger_warn host req "Auth failed - All tokens invalid" [] ;;
            c_json Unauthorized 401
        end
    end.

(** *** [auth.service.ts] and [auth.controller.ts]: how the cookies are
    first issued by [login] and [register], once the user row is known *)

Definition issue_tokens (user_id : string) : M (string * string) :=
  let* accessToken :=
    sign {| jwt_id := user_id |} (ACCESS_TOKEN_SECRET (env host)) {| expiresIn := "1h" |} in
  let* refreshToken :=
    sign {| jwt_id := user_id |} (REFRESH_TOKEN_SECRET (env host)) {| expiresIn := "7d" |} in
  ret (accessToken, refreshToken).

Definition set_session_cookies (tokens : string * string) : M unit :=
  setCookie "accessToken" (fst tokens) cookieOptions.access ;;
  setCookie "refreshToken" (snd tokens) cookieOptions.refresh.
End AuthMiddleware.

(** ** A reference [jsonwebtoken] to run the middleware on

    Tokens are rendered [id.exp.secret] with [exp] in decimal seconds: the
    signature is symbolic (the secret itself), which is enough to execute
    the middleware on concrete requests. *)

Module RefJwt.
Fixpoint split_on (sep : ascii) (s : string) : list string :=
  match s with
  | EmptyString => [EmptyString]
  | String c rest =>
      if Ascii.eqb c sep then EmptyString :: split_on sep rest
      else match split_on sep rest with
           | hd :: tl => String c hd :: tl
           | [] => [String c EmptyString]
           end
  end.

Definition digit (c : ascii) : option Z :=
  let n := Z.of_nat (nat_of_ascii c) in
  if ((48 <=? n) && (n <=? 57))%Z then Some (n - 48)%Z else None.

Fixpoint parse_digits (acc : Z) (s : string) : option Z :=
  match s with
  | EmptyString => Some acc
  | String c rest =>
      match digit c with
      | Some d => parse_digits (10 * acc + d)%Z rest
      | None => None
      end
  end.

Definition parse_Z (s : string) : option Z :=
  match s with
  | EmptyString => None
  | _ => parse_digits 0 s
  end.

Fixpoint print_digits (fuel : nat) (n : Z) (acc : string) : string :=
  match fuel with
  | O => acc
  | S fuel' =>
      let acc' := String (ascii_of_nat (Z.to_nat (48 + n mod 10))) acc in
      if (n <? 10)%Z then acc' else print_digits fuel' (n / 10)%Z acc'
  end.

Definition print_Z (n : Z) : string := print_digits 32 n EmptyString.

(** The spans the repository signs with: ["1h"] and ["7d"]. *)
Definition span_seconds (s : string) : Z :=
  match split_on "h"%char s, split_on "d"%char s with
  | [n; EmptyString], _ => default 0%Z (parse_Z n) * 3600
  | _, [n; EmptyString] => default 0%Z (parse_Z n) * 86400
  | _, _ => 0
  end%Z.

Definition sign (payload : JwtPayload) (secret : string) (options : SignOptions)
    (clock : Z) : Outcome string :=
  match secret with
  | EmptyString => Throws (ErrorObject "secretOrPrivateKey must have a value")
  | _ =>
      Returns (jwt_id payload +:+ "." +:+ print_Z (clock + span_seconds (expiresIn options))
                 +:+ "." +:+ secret)
  end.

Lemma sign_checks_first payload secret options clock clock' e :
  sign payload secret options clock = Throws e ->
  sign payload secret options clock' = Throws e.
Proof. unfold sign. by destruct secret. Qed.

Definition verify (token secret : string) (clock : Z) : Outcome JwtPayload :=
  match token with
  | EmptyString => Throws (ErrorObject "jwt must be provided")
  | _ =>
      match split_on "."%char token with
      | [i; e; k] =>
          if negb (String.eqb k secret) then Throws (ErrorObject "invalid signature")
          else match parse_Z e with
               | None => Throws (ErrorObject "invalid token")
               | Some exp =>
                   if (exp <=? clock)%Z then Throws (ErrorObject "jwt expired")
                   else Returns {| jwt_id := i |}
               end
      | _ => Throws (ErrorObject "jwt malformed")
      end
  end.

#[export] Instance lib : Jsonwebtoken :=
  {| jwt_verify := verify; jwt_sign := sign;
     jwt_must_be_provided := fun _ _ => eq_refl;
     jwt_secret_must_have_value := fun _ _ _ => eq_refl;
     jwt_sign_checks_first := sign_checks_first |}.
End RefJwt.

(** ** Fixtures: a deployment, a clock, and requests *)

Module Fixture.
Definition env0 : ProcessEnv :=
  {| ACCESS_TOKEN_SECRET := "ak"; REFRESH_TOKEN_SECRET := "rk";
     NODE_ENV := Some "production" |}.

Definition host0 : Host :=
  {| env := env0; Date_now := 1000500;
     toISOString := fun _ => "2025-01-01T00:16:40.500Z";
     crypto_randomUUID := "id-0"; process_cwd := "/app";
     appendFileSync_ok := fun _ => true |}.

Definition request (cookies : list (string * string)) : HonoRequest :=
  {| req_cookies := list_to_map cookies; req_headers := ∅;
     req_method := "GET"; req_url := "http://localhost:3003/api/v1/profile" |}.

Definition fresh : World :=
  {| ctx_userId := None; ctx_requestContext := None; res_setCookie := [];
     fs := ∅; console := []; jwt_calls := []; next_calls := [] |}.

(** Downstream chains. *)
Definition handler_ok : nat -> Outcome unit := fun _ => Returns tt.
Definition handler_fails_once : nat -> Outcome unit :=
  fun k => match k with O => Throws OtherValue | S _ => Returns tt end.
Definition handler_rejects : nat -> Outcome unit :=
  fun k =>
    match k with
    | O => Throws OtherValue
    | S _ => Throws (ErrorObject "next() called multiple times")
    end.

(** A later request to the same deployment, 1000 seconds on. *)
Definition host1 : Host :=
  {| env := env0; Date_now := 2000500;
     toISOString := fun _ => "2025-01-01T00:33:20.500Z";
     crypto_randomUUID := "id-1"; process_cwd := "/app";
     appendFileSync_ok := fun _ => true |}.

(** A deployment that leaves [ACCESS_TOKEN_SECRET] empty. *)
Definition host_no_access_key : Host :=
  {| env := {| ACCESS_TOKEN_SECRET := ""; REFRESH_TOKEN_SECRET := "rk";
               NODE_ENV := Some "production" |};
     Date_now := 1000500;
     toISOString := fun _ => "2025-01-01T00:16:40.500Z";
     crypto_randomUUID := "id-0"; process_cwd := "/app";
     appendFileSync_ok := fun _ => true |}.

(** Tokens minted at second 1000 by [RefJwt.sign]. *)
Definition access_u1 : string := "u1.4600.ak".
Definition refresh_u1 : string := "u1.605800.rk".
Definition refresh_u2 : string := "u2.605800.rk".
Definition expired_u1 : string := "u1.900.ak".
End Fixture.

(** * Properties *)

Arguments clockTimestamp : simpl never.
Arguments logger_info : simpl never.
Arguments logger_warn : simpl never.
Arguments logger_debug : simpl never.
Arguments log_filepath : simpl never.

(** ** What logging may change

    Logging leaves the authentication state alone: it may set
    [requestContext], print, and append lines to the day's log files. *)

Section LoggerFrame.
Variable host : Host.
Variable req : HonoRequest.

Definition is_log_file (p : string) : Prop := exists lvl, p = log_filepath host lvl.

Definition fs_appended (m m' : gmap string (list LogEntry)) : Prop :=
  forall p : string,
    (exists more, default [] (m' !! p) = default [] (m !! p) ++ more) /\
    (~ is_log_file p -> m' !! p = m !! p).

Record logs_only (w w' : World) : Prop := LogsOnly {
  lo_userId : ctx_userId w' = ctx_userId w;
  lo_setCookie : res_setCookie w' = res_setCookie w;
  lo_jwt_calls : jwt_calls w' = jwt_calls w;
  lo_next_calls : next_calls w' = next_calls w;
  lo_fs : fs_appended (fs w) (fs w');
  lo_console : exists more, console w' = console w ++ more
}.

(** The console line [log] prints for a message. *)
Definition printed (lvl : LogLevel) (msg : string) (d : LogData) : ConsoleLine :=
  console_log
    (colors lvl +:+ "[" +:+ new_Date_toISOString host +:+ "] " +:+ level_toUpperCase lvl
       +:+ ": " +:+ msg +:+ reset)
    d.

(** [line] was printed between [w] and [w']. *)
Definition prints (w w' : World) (line : ConsoleLine) : Prop :=
  exists pre post, console w' = console w ++ pre ++ line :: post.

Lemma fs_appended_refl m : fs_appended m m.
Proof.
  intros p. split; [exists []; by rewrite app_nil_r | done].
Qed.

Lemma fs_appended_trans m1 m2 m3 :
  fs_appended m1 m2 -> fs_appended m2 m3 -> fs_appended m1 m3.
Proof.
  intros H12 H23 p.
  destruct (H12 p) as [[more1 E1] K1], (H23 p) as [[more2 E2] K2].
  split.
  - exists (more1 ++ more2). by rewrite E2, E1, app_assoc.
  - intros Hp. by rewrite K2, K1.
Qed.

Lemma fs_appended_insert m lvl (content : LogEntry) :
  fs_appended m
    (<[log_filepath host lvl := default [] (m !! log_filepath host lvl) ++ [content]]> m).
Proof.
  intros p. destruct (decide (p = log_filepath host lvl)) as [->|Hne].
  - rewrite lookup_insert_eq. split; [by exists [content] |].
    intros Hp. exfalso. apply Hp. by exists lvl.
  - rewrite lookup_insert_ne by done. split; [exists []; by rewrite app_nil_r | done].
Qed.

Lemma console_same (l : list ConsoleLine) : exists more, l = l ++ more.
Proof. exists []. by rewrite app_nil_r. Qed.

Lemma logs_only_refl w : logs_only w w.
Proof. split; auto using fs_appended_refl, console_same. Qed.

Lemma logs_only_trans w1 w2 w3 :
  logs_only w1 w2 -> logs_only w2 w3 -> logs_only w1 w3.
Proof.
  intros [? ? ? ? ? [m1 C1]] [? ? ? ? ? [m2 C2]]. split; try congruence.
  - eauto using fs_appended_trans.
  - exists (m1 ++ m2). by rewrite C2, C1, app_assoc.
Qed.

Lemma prints_then_logs w1 w2 w3 line :
  prints w1 w2 line -> logs_only w2 w3 -> prints w1 w3 line.
Proof.
  intros (pre & post & E) [_ _ _ _ _ [more C]].
  exists pre, (post ++ more). rewrite C, E.
  by rewrite <- !app_assoc.
Qed.

Lemma logs_then_prints w1 w2 w3 line :
  logs_only w1 w2 -> prints w2 w3 line -> prints w1 w3 line.
Proof.
  intros [_ _ _ _ _ [more C]] (pre & post & E).
  exists (more ++ pre), post. rewrite E, C.
  by rewrite <- !app_assoc.
Qed.

Lemma getRequestContext_run w :
  exists rc w', getRequestContext host req w = (Returns rc, w') /\ logs_only w w'.
Proof.
  unfold getRequestContext, bind, gets, modify, ret.
  destruct (ctx_requestContext w) as [rc|].
  - exists rc, w. auto using logs_only_refl.
  - eexists _, _. split; [reflexivity |].
    split; simpl; auto using fs_appended_refl, console_same.
Qed.

Lemma writeToFile_run lvl content w :
  exists w', writeToFile host lvl content w = (Returns tt, w') /\ logs_only w w'.
Proof.
  unfold writeToFile, try_catch, appendFileSync, console_print, modify, throw.
  destruct (appendFileSync_ok host (log_filepath host lvl)).
  - eexists. split; [reflexivity |].
    split; simpl; auto using fs_appended_insert, console_same.
  - eexists. split; [reflexivity |].
    split; simpl; eauto using fs_appended_refl.
Qed.

Lemma log_run lvl msg d m w :
  exists w', log host lvl msg d m w = (Returns tt, w') /\ logs_only w w' /\
             prints w w' (printed lvl msg d).
Proof.
  unfold log, bind at 1. unfold console_print, modify at 1.
  set (w0 := with_console _ w).
  assert (L0 : logs_only w w0) by (split; simpl; eauto using fs_appended_refl).
  assert (P0 : prints w w0 (printed lvl msg d)) by (by exists [], []).
  unfold bind.
  destruct (writeToFile_run lvl
              (formatLog host
                 {| timestamp := new_Date_toISOString host; level := lvl;
                    message := msg; data := d; meta := m |}) w0)
    as (w1 & E1 & L1).
  rewrite E1.
  destruct (writeToFile_run lvl_info
              (formatLog host
                 {| timestamp := new_Date_toISOString host; level := lvl;
                    message := msg; data := d; meta := m |}) w1)
    as (w2 & E2 & L2).
  rewrite E2. exists w2. split; [reflexivity |]. split.
  - eapply logs_only_trans; [exact L0 |]. by eapply logs_only_trans.
  - eapply prints_then_logs; [exact P0 |]. by eapply logs_only_trans.
Qed.

Lemma logger_with_context_run lvl msg d w :
  exists w',
    bind (getRequestContext host req) (fun m => log host lvl msg d (Some m)) w
      = (Returns tt, w') /\ logs_only w w' /\ prints w w' (printed lvl msg d).
Proof.
  unfold bind.
  destruct (getRequestContext_run w) as (rc & w1 & E1 & L1). rewrite E1.
  destruct (log_run lvl msg d (Some rc) w1) as (w2 & E2 & L2 & P2).
  exists w2. split; [exact E2 |]. split.
  - by eapply logs_only_trans.
  - by eapply logs_then_prints.
Qed.

Lemma logger_info_run msg d w :
  exists w', logger_info host req msg d w = (Returns tt, w') /\ logs_only w w' /\
             prints w w' (printed lvl_info msg d).
Proof. apply logger_with_context_run. Qed.

Lemma logger_warn_run msg d w :
  exists w', logger_warn host req msg d w = (Returns tt, w') /\ logs_only w w' /\
             prints w w' (printed lvl_warn msg d).
Proof. apply logger_with_context_run. Qed.

(** [logger.debug] is silent outside development. *)
Lemma logger_debug_run msg d w :
  exists w', logger_debug host req msg d w = (Returns tt, w') /\ logs_only w w' /\
             (NODE_ENV (env host) = Some "development" ->
              prints w w' (printed lvl_debug msg d)).
Proof.
  unfold logger_debug. case_bool_decide.
  - destruct (logger_with_context_run lvl_debug msg d w) as (w' & E & L & P).
    exists w'. auto.
  - exists w. split; [reflexivity |]. split; [apply logs_only_refl | done].
Qed.

(** *** The rest of the context

    Besides the files, the logger touches two things: it stores the request
    context it builds (once, when none is stored yet), and it prints. *)

(** The context [getRequestContext] builds for this request. *)
Definition new_requestContext : RequestContext :=
  {| requestId := crypto_randomUUID host;
     ip := js_or (req_header req "x-forwarded-for")
                 (js_or (req_header req "x-real-ip") "unknown");
     userAgent := js_or (req_header req "user-agent") "unknown";
     method := req_method req;
     url := req_url req;
     startTime := Date_now host |}.

(** The lines the logger prints: a message, or a failed append. *)
Definition logger_line (l : ConsoleLine) : Prop :=
  (exists lvl msg d, l = printed lvl msg d) \/
  l = console_error "Failed to write to log file:".

Record logger_state (w w' : World) : Prop := LoggerState {
  ls_requestContext :
    ctx_requestContext w' = ctx_requestContext w \/
    (ctx_requestContext w = None /\ ctx_requestContext w' = Some new_requestContext);
  ls_console : exists more, console w' = console w ++ more /\ Forall logger_line more
}.

(** [keeps m]: whatever [m] does, and however it ends, the request context
    and the console move as the logger alone moves them. *)
Definition keeps {A} (m : M A) : Prop := forall w, logger_state w (snd (m w)).

Lemma logger_state_refl w : logger_state w w.
Proof. split; [by left |]. exists []. by rewrite app_nil_r. Qed.

Lemma logger_state_trans w1 w2 w3 :
  logger_state w1 w2 -> logger_state w2 w3 -> logger_state w1 w3.
Proof.
  intros [R1 (m1 & C1 & F1)] [R2 (m2 & C2 & F2)]. split.
  - destruct R1 as [R1|[N1 S1]], R2 as [R2|[N2 S2]].
    + left. congruence.
    + right. split; congruence.
    + right. split; congruence.
    + congruence.
  - exists (m1 ++ m2). split; [by rewrite C2, C1, app_assoc | by apply Forall_app].
Qed.

Lemma keeps_ret {A} (a : A) : keeps (ret a).
Proof. intros w. apply logger_state_refl. Qed.

Lemma keeps_throw {A} (e : Thrown) : keeps (@throw A e).
Proof. intros w. apply logger_state_refl. Qed.

Lemma keeps_gets {A} (f : World -> A) : keeps (gets f).
Proof. intros w. apply logger_state_refl. Qed.

Lemma keeps_bind {A B} (m : M A) (k : A -> M B) :
  keeps m -> (forall a, keeps (k a)) -> keeps (bind m k).
Proof.
  intros Hm Hk w. unfold bind. specialize (Hm w).
  destruct (m w) as [[a|e] w1]; simpl in Hm; [| exact Hm].
  eapply logger_state_trans; [exact Hm | apply Hk].
Qed.

Lemma keeps_try_catch {A} (body : M A) (handler : Thrown -> M A) :
  keeps body -> (forall e, keeps (handler e)) -> keeps (try_catch body handler).
Proof.
  intros Hb Hh w. unfold try_catch. specialize (Hb w).
  destruct (body w) as [[a|e] w1]; simpl in Hb; [exact Hb |].
  eapply logger_state_trans; [exact Hb | apply Hh].
Qed.

(** A step that changes neither the request context nor the console. *)
Lemma keeps_silent {A} (m : M A) :
  (forall w, ctx_requestContext (snd (m w)) = ctx_requestContext w /\
             console (snd (m w)) = console w) ->
  keeps m.
Proof.
  intros H w. destruct (H w) as [R C]. split; [by left |].
  exists []. by rewrite app_nil_r.
Qed.

Lemma keeps_console_print line : logger_line line -> keeps (console_print line).
Proof.
  intros L w. split; [by left |]. exists [line]. split; [done | by constructor].
Qed.

Lemma keeps_getRequestContext : keeps (getRequestContext host req).
Proof.
  intros w. unfold getRequestContext, bind, gets, modify, ret.
  destruct (ctx_requestContext w) as [rc|] eqn:E; simpl.
  - apply logger_state_refl.
  - split; [by right |]. exists []. by rewrite app_nil_r.
Qed.

Lemma keeps_writeToFile lvl content : keeps (writeToFile host lvl content).
Proof.
  apply keeps_try_catch.
  - unfold appendFileSync. destruct (appendFileSync_ok host _).
    + by apply keeps_silent.
    + apply keeps_throw.
  - intros e. apply keeps_console_print. by right.
Qed.

Lemma keeps_log lvl msg d m : keeps (log host lvl msg d m).
Proof.
  unfold log. apply keeps_bind.
  - apply keeps_console_print. left. by exists lvl, msg, d.
  - intros _. apply keeps_bind; [apply keeps_writeToFile | intros _; apply keeps_writeToFile].
Qed.

Lemma keeps_logger_info msg d : keeps (logger_info host req msg d).
Proof.
  apply keeps_bind; [apply keeps_getRequestContext | intros m; apply keeps_log].
Qed.

Lemma keeps_logger_warn msg d : keeps (logger_warn host req msg d).
Proof.
  apply keeps_bind; [apply keeps_getRequestContext | intros m; apply keeps_log].
Qed.

Lemma keeps_logger_debug msg d : keeps (logger_debug host req msg d).
Proof.
  unfold logger_debug. case_bool_decide; [| apply keeps_ret].
  apply keeps_bind; [apply keeps_getRequestContext | intros m; apply keeps_log].
Qed.
End LoggerFrame.

(** ** The runs of the middleware

    The two [if (token) { try ... catch ... }] blocks are named, and each is
    described by the runs it can make; [authMiddleware] is then the
    composition of the two. *)

Section Runs.
Context `{lib : Jsonwebtoken}.
Variable host : Host.
Variable req : HonoRequest.
Variable downstream : nat -> Outcome unit.

Abbreviation AK := (ACCESS_TOKEN_SECRET (env host)).
Abbreviation RK := (REFRESH_TOKEN_SECRET (env host)).
Abbreviation clock := (clockTimestamp host).

Definition access_block (accessToken : option string) : M Flow :=
  when_truthy accessToken (fun accessToken =>
    try_catch
      (let* decoded := verify host accessToken AK in
       c_set_userId (jwt_id decoded) ;;
       next downstream ;;
       ret (Return None))
      (fun error =>
         logger_debug host req "Access token invalid, attempting refresh"
           [("error", error_message error)] ;;
         ret FallThrough)).

Definition refresh_block (refreshToken : option string) : M Flow :=
  when_truthy refreshToken (fun refreshToken =>
    try_catch
      (let* decoded := verify host refreshToken RK in
       let* newAccessToken :=
         sign host {| jwt_id := jwt_id decoded |} AK {| expiresIn := "1h" |} in
       setCookie "accessToken" newAccessToken cookieOptions.access ;;
       c_set_userId (jwt_id decoded) ;;
       logger_info host req "Token refreshed successfully"
         [("userId", jwt_id decoded)] ;;
       next downstream ;;
       ret (Return None))
      (fun error =>
         logger_warn host req "Auth failed - Invalid refresh token"
           [("error", error_message error)] ;;
         ret FallThrough)).

Definition reject_all_invalid : M (option Response) :=
  logger_warn host req "Auth failed - All tokens invalid" [] ;;
  c_json Unauthorized 401.

Definition reject_no_tokens : M (option Response) :=
  logger_warn host req "Auth failed - No tokens provided" [] ;;
  c_json Unauthorized 401.

Lemma authMiddleware_blocks :
  authMiddleware host req downstream =
    if negb (truthy (getCookie req "accessToken")) && negb (truthy (getCookie req "refreshToken"))
    then reject_no_tokens
    else
      let* tried_access := access_block (getCookie req "accessToken") in
      match tried_access with
      | Return r => ret r
      | FallThrough =>
          let* tried_refresh := refresh_block (getCookie req "refreshToken") in
          match tried_refresh with
          | Return r => ret r
          | FallThrough => reject_all_invalid
          end
      end.
Proof. reflexivity. Qed.

(** The authentication-relevant effect of each step, with logging left out. *)
Definition after_verify (token secret : string) (w : World) : World :=
  with_jwt_calls (jwt_calls w ++ [VerifyCall token secret]) w.

Definition after_admit (uid : string) (w : World) : World :=
  with_next_calls (next_calls w ++ [Some uid]) (with_userId (Some uid) w).

(** [jwt.sign({ id }, ACCESS_TOKEN_SECRET, { expiresIn: "1h" })] now. *)
Definition mint (uid : string) : Outcome string :=
  jwt_sign {| jwt_id := uid |} AK {| expiresIn := "1h" |} clock.

Definition renewed_cookie (newAccessToken : string) : Cookie :=
  {| cookie_name := "accessToken";
     cookie_value := newAccessToken;
     cookie_opts := cookieOptions.access |}.

Definition after_sign (uid : string) (w : World) : World :=
  with_jwt_calls
    (jwt_calls w ++ [SignCall {| jwt_id := uid |} AK {| expiresIn := "1h" |}]) w.

Definition after_mint (uid newAccessToken : string) (w : World) : World :=
  with_setCookie (res_setCookie w ++ [renewed_cookie newAccessToken]) (after_sign uid w).

(** What the [catch] of the access block prints (in development). *)
Definition access_catch_line (e : Thrown) : ConsoleLine :=
  printed host lvl_debug "Access token invalid, attempting refresh"
    [("error", error_message e)].

Inductive access_run (a : option string) (w : World) : Flow -> World -> Prop :=
| access_skipped :
    truthy a = false ->
    access_run a w FallThrough w
| access_rejected tok e w' :
    a = Some tok -> truthy a = true ->
    jwt_verify tok AK clock = Throws e ->
    logs_only host (after_verify tok AK w) w' ->
    (NODE_ENV (env host) = Some "development" -> prints w w' (access_catch_line e)) ->
    access_run a w FallThrough w'
| access_admitted tok p :
    a = Some tok -> truthy a = true ->
    jwt_verify tok AK clock = Returns p ->
    downstream (length (next_calls w)) = Returns tt ->
    access_run a w (Return None) (after_admit (jwt_id p) (after_verify tok AK w))
| access_handler_threw tok p e w' :
    a = Some tok -> truthy a = true ->
    jwt_verify tok AK clock = Returns p ->
    downstream (length (next_calls w)) = Throws e ->
    logs_only host (after_admit (jwt_id p) (after_verify tok AK w)) w' ->
    (NODE_ENV (env host) = Some "development" -> prints w w' (access_catch_line e)) ->
    access_run a w FallThrough w'.

Inductive refresh_run (r : option string) (w : World) : Flow -> World -> Prop :=
| refresh_skipped :
    truthy r = false ->
    refresh_run r w FallThrough w
| refresh_rejected tok e w' :
    r = Some tok -> truthy r = true ->
    jwt_verify tok RK clock = Throws e ->
    logs_only host (after_verify tok RK w) w' ->
    refresh_run r w FallThrough w'
| refresh_unsigned tok q e w' :
    r = Some tok -> truthy r = true ->
    jwt_verify tok RK clock = Returns q ->
    mint (jwt_id q) = Throws e ->
    logs_only host (after_sign (jwt_id q) (after_verify tok RK w)) w' ->
    refresh_run r w FallThrough w'
| refresh_renewed tok q t w' :
    r = Some tok -> truthy r = true ->
    jwt_verify tok RK clock = Returns q ->
    mint (jwt_id q) = Returns t ->
    downstream (length (next_calls w)) = Returns tt ->
    logs_only host
      (after_admit (jwt_id q) (after_mint (jwt_id q) t (after_verify tok RK w))) w' ->
    refresh_run r w (Return None) w'
| refresh_handler_threw tok q t e w' :
    r = Some tok -> truthy r = true ->
    jwt_verify tok RK clock = Returns q ->
    mint (jwt_id q) = Returns t ->
    downstream (length (next_calls w)) = Throws e ->
    logs_only host
      (after_admit (jwt_id q) (after_mint (jwt_id q) t (after_verify tok RK w))) w' ->
    refresh_run r w FallThrough w'.

Inductive auth_run (w : World) : option Response -> World -> Prop :=
| auth_no_tokens w' :
    truthy (getCookie req "accessToken") = false ->
    truthy (getCookie req "refreshToken") = false ->
    reject_no_tokens w = (Returns (Some {| status := 401; body := Unauthorized |}), w') ->
    logs_only host w w' ->
    auth_run w (Some {| status := 401; body := Unauthorized |}) w'
| auth_by_access w1 :
    access_run (getCookie req "accessToken") w (Return None) w1 ->
    auth_run w None w1
| auth_by_refresh w1 w2 :
    access_run (getCookie req "accessToken") w FallThrough w1 ->
    refresh_run (getCookie req "refreshToken") w1 (Return None) w2 ->
    auth_run w None w2
| auth_all_invalid w1 w2 w3 :
    access_run (getCookie req "accessToken") w FallThrough w1 ->
    refresh_run (getCookie req "refreshToken") w1 FallThrough w2 ->
    logs_only host w2 w3 ->
    auth_run w (Some {| status := 401; body := Unauthorized |}) w3.

Lemma access_block_run a w :
  exists f w', access_block a w = (Returns f, w') /\ access_run a w f w'.
Proof.
  destruct a as [[|c s]|].
  - exists FallThrough, w. split; [reflexivity | by constructor].
  - unfold access_block, when_truthy, try_catch, bind, verify.
    destruct (jwt_verify (String c s) AK clock) as [p|e] eqn:V.
    + unfold c_set_userId, modify, next. simpl.
      destruct (downstream (length (next_calls w))) as [[]|e] eqn:D.
      * eexists _, _. split; [reflexivity |].
        by eapply access_admitted.
      * destruct (logger_debug_run host req
                    "Access token invalid, attempting refresh"
                    [("error", error_message e)]
                    (after_admit (jwt_id p) (after_verify (String c s) AK w)))
          as (w' & E & L & P).
        unfold after_admit, after_verify in E. simpl in E. rewrite E.
        exists FallThrough, w'. split; [reflexivity |].
        by eapply access_handler_threw.
    + destruct (logger_debug_run host req
                  "Access token invalid, attempting refresh"
                  [("error", error_message e)] (after_verify (String c s) AK w))
        as (w' & E & L & P).
      unfold after_verify in E. rewrite E.
      exists FallThrough, w'. split; [reflexivity |].
      by eapply access_rejected.
  - exists FallThrough, w. split; [reflexivity | by constructor].
Qed.

Lemma logs_only_next X wl uid :
  logs_only host X wl -> ctx_userId X = Some uid ->
  logs_only host (with_next_calls (next_calls X ++ [Some uid]) X)
    (with_next_calls (next_calls wl ++ [ctx_userId wl]) wl).
Proof.
  intros [Hu Hc Hj Hn Hf Ho] HX. split; simpl; try done.
  by rewrite Hn, Hu, HX.
Qed.

Lemma refresh_block_run r w :
  exists f w', refresh_block r w = (Returns f, w') /\ refresh_run r w f w'.
Proof.
  destruct r as [[|c s]|].
  - exists FallThrough, w. split; [reflexivity | by constructor].
  - unfold refresh_block, when_truthy, try_catch, bind, verify.
    destruct (jwt_verify (String c s) RK clock) as [q|e] eqn:V.
    + unfold sign. fold (mint (jwt_id q)).
      destruct (mint (jwt_id q)) as [t|e] eqn:S.
      2: { destruct (logger_warn_run host req "Auth failed - Invalid refresh token"
                       [("error", error_message e)]
                       (after_sign (jwt_id q) (after_verify (String c s) RK w)))
             as (w' & E & L & _).
           unfold after_sign, after_verify in E. rewrite E.
           exists FallThrough, w'. split; [reflexivity |].
           by eapply refresh_unsigned. }
      unfold setCookie, c_set_userId, modify. simpl.
      set (X := with_userId (Some (jwt_id q))
                  (after_mint (jwt_id q) t (after_verify (String c s) RK w))).
      destruct (logger_info_run host req "Token refreshed successfully"
                  [("userId", jwt_id q)] X) as (wl & E & L & _).
      unfold X, after_mint, after_sign, after_verify, renewed_cookie in E. simpl in E.
      rewrite E. clear E.
      assert (Hlen : length (next_calls wl) = length (next_calls w))
        by (by rewrite (lo_next_calls _ _ _ L)).
      assert (LR : logs_only host
                     (after_admit (jwt_id q)
                        (after_mint (jwt_id q) t (after_verify (String c s) RK w)))
                     (with_next_calls (next_calls wl ++ [ctx_userId wl]) wl))
        by (by apply (logs_only_next X wl (jwt_id q))).
      unfold next. rewrite Hlen.
      destruct (downstream (length (next_calls w))) as [[]|e] eqn:D.
      * eexists _, _. split; [reflexivity |].
        by eapply refresh_renewed.
      * destruct (logger_warn_run host req "Auth failed - Invalid refresh token"
                    [("error", error_message e)]
                    (with_next_calls (next_calls wl ++ [ctx_userId wl]) wl))
          as (w' & E & L' & _).
        rewrite E. exists FallThrough, w'. split; [reflexivity |].
        eapply refresh_handler_threw; eauto using logs_only_trans.
    + destruct (logger_warn_run host req "Auth failed - Invalid refresh token"
                  [("error", error_message e)] (after_verify (String c s) RK w))
        as (w' & E & L & _).
      unfold after_verify in E. rewrite E.
      exists FallThrough, w'. split; [reflexivity |].
      by eapply refresh_rejected.
  - exists FallThrough, w. split; [reflexivity | by constructor].
Qed.

Lemma reject_run (msg : string) w :
  exists w',
    (logger_warn host req msg [] ;; c_json Unauthorized 401) w
      = (Returns (Some {| status := 401; body := Unauthorized |}), w') /\
    logs_only host w w' /\ prints w w' (printed host lvl_warn msg []).
Proof.
  unfold bind, c_json, ret.
  destruct (logger_warn_run host req msg [] w) as (w' & E & L & P).
  rewrite E. by exists w'.
Qed.

(** The middleware always returns (it never lets an exception escape), and
    its run is one of the four of [auth_run]. *)
Lemma authMiddleware_run w :
  exists r w', authMiddleware host req downstream w = (Returns r, w') /\ auth_run w r w'.
Proof.
  rewrite authMiddleware_blocks.
  destruct (truthy (getCookie req "accessToken")) eqn:Ta; simpl.
  2: destruct (truthy (getCookie req "refreshToken")) eqn:Tr; simpl.
  3: { destruct (reject_run "Auth failed - No tokens provided" w) as (w' & E & L & _).
       eexists _, w'. split; [exact E |]. by apply auth_no_tokens. }
  all: unfold bind at 1;
    destruct (access_block_run (getCookie req "accessToken") w) as (f & w1 & E1 & R1);
    rewrite E1; destruct f as [res|].
  all: try (inversion R1; subst; eexists _, _; split; [reflexivity |];
            by apply auth_by_access).
  all: unfold bind at 1;
    destruct (refresh_block_run (getCookie req "refreshToken") w1) as (f & w2 & E2 & R2);
    rewrite E2; destruct f as [res|].
  all: try (inversion R2; subst; eexists _, _; split; [reflexivity |];
            by eapply auth_by_refresh).
  all: destruct (reject_run "Auth failed - All tokens invalid" w2) as (w3 & E3 & L3 & _);
    eexists _, w3; (split; [exact E3 |]); by eapply auth_all_invalid.
Qed.

(** *** Premises of the claims, as checks on the request *)

(** "absent or fails verification": no [Returns] from [jwt.verify]. *)
Definition fails_verification (tok : option string) (secret : string) : bool :=
  match tok with
  | None => true
  | Some t =>
      match jwt_verify t secret clock with
      | Throws _ => true
      | Returns _ => false
      end
  end.

Lemma verified_truthy t secret p :
  jwt_verify t secret clock = Returns p -> truthy (Some t) = true.
Proof.
  destruct t; [| done]. by rewrite jwt_must_be_provided.
Qed.

Ltac clash :=
  match goal with
  | F : fails_verification (Some ?t) ?k = true, V : jwt_verify ?t ?k _ = Returns _ |- _ =>
      simpl in F; rewrite V in F; discriminate F
  | F : fails_verification ?a ?k = true, A : ?a = Some ?t,
    V : jwt_verify ?t ?k _ = Returns _ |- _ =>
      rewrite A in F; simpl in F; rewrite V in F; discriminate F
  | V : jwt_verify ?t ?k ?c = Returns _, V' : jwt_verify ?t ?k ?c = Throws _ |- _ =>
      rewrite V in V'; discriminate V'
  | D : ?d ?n = Returns _, D' : ?d ?n = Throws _ |- _ =>
      rewrite D in D'; discriminate D'
  end.

(** [quiet w w']: from [w] to [w'] only the call log and the logs moved. *)
Definition quiet (w w' : World) : Prop :=
  logs_only host (with_jwt_calls (jwt_calls w') w) w'.

Lemma logs_only_quiet w w' : logs_only host w w' -> quiet w w'.
Proof. intros []. split; simpl; auto. Qed.

Lemma quiet_trans w1 w2 w3 : quiet w1 w2 -> quiet w2 w3 -> quiet w1 w3.
Proof.
  intros [? ? ? ? ? [m1 C1]] [? ? ? ? ? [m2 C2]]. simpl in *.
  split; simpl; try congruence.
  - eauto using fs_appended_trans.
  - exists (m1 ++ m2). by rewrite C2, C1, app_assoc.
Qed.

Lemma quiet_after_verify tok secret w w' :
  logs_only host (after_verify tok secret w) w' -> quiet w w'.
Proof. intros []. split; simpl in *; auto. Qed.

Ltac frames :=
  unfold quiet in *;
  repeat match goal with
         | H : logs_only _ _ _ |- _ => destruct H as [? ? ? ? ? ?]
         end;
  unfold after_admit, after_mint, after_sign, after_verify in *; simpl in *.

(** A block whose token fails verification runs on, having touched
    nothing but the call log and the logs. *)
Lemma access_fails_run a w f w1 :
  access_run a w f w1 -> fails_verification a AK = true ->
  f = FallThrough /\ quiet w w1.
Proof.
  intros R F. inversion R; subst; try clash.
  - split; [done |]. apply logs_only_quiet, logs_only_refl.
  - eauto using quiet_after_verify.
Qed.

Lemma refresh_fails_run r w f w1 :
  refresh_run r w f w1 -> fails_verification r RK = true ->
  f = FallThrough /\ quiet w w1.
Proof.
  intros R F. inversion R; subst; try clash.
  - split; [done |]. apply logs_only_quiet, logs_only_refl.
  - eauto using quiet_after_verify.
Qed.

Ltac same :=
  repeat match goal with
         | H : ?x = Some ?a, H' : ?x = Some ?b |- _ =>
             assert (b = a) by congruence; subst b; clear H'
         | H : ?x = Returns ?a, H' : ?x = Returns ?b |- _ =>
             assert (b = a) by congruence; subst b; clear H'
         | H : ?x = Throws ?a, H' : ?x = Throws ?b |- _ =>
             assert (b = a) by congruence; subst b; clear H'
         end.

Ltac chase :=
  repeat match goal with
         | H : jwt_calls ?x = _ |- context [jwt_calls ?x] => rewrite H
         | H : res_setCookie ?x = _ |- context [res_setCookie ?x] => rewrite H
         | H : next_calls ?x = _ |- context [next_calls ?x] => rewrite H
         | H : ctx_userId ?x = _ |- context [ctx_userId ?x] => rewrite H
         end;
  rewrite <- ?app_assoc; simpl.

Ltac invert_runs :=
  repeat match goal with
         | R : access_run _ _ _ _ |- _ => inversion R; clear R; subst
         | R : refresh_run _ _ _ _ |- _ => inversion R; clear R; subst
         end.

Ltac failed_blocks :=
  repeat match goal with
         | R : access_run ?a _ _ _, F : fails_verification ?a _ = true |- _ =>
             let Q := fresh "Q" in
             destruct (access_fails_run _ _ _ _ R F) as [? Q]; clear R
         | R : refresh_run ?r _ _ _, F : fails_verification ?r _ = true |- _ =>
             let Q := fresh "Q" in
             destruct (refresh_fails_run _ _ _ _ R F) as [? Q]; clear R
         end.

(** No token verifies: the request is turned away, whichever way. *)
Lemma no_valid_token_run w :
  fails_verification (getCookie req "accessToken") AK = true ->
  fails_verification (getCookie req "refreshToken") RK = true ->
  exists w',
    authMiddleware host req downstream w
      = (Returns (Some {| status := 401; body := Unauthorized |}), w') /\
    quiet w w'.
Proof.
  intros Fa Fr.
  destruct (authMiddleware_run w) as (r & w' & E & R).
  exists w'. inversion R; subst; failed_blocks; try discriminate.
  - auto using logs_only_quiet.
  - split; [done |]. eauto using quiet_trans, logs_only_quiet.
Qed.

(** A verified access token and a handler that returns: the terminal
    success path, with no logging at all. *)
Lemma access_admits_run w tok p :
  getCookie req "accessToken" = Some tok ->
  jwt_verify tok AK clock = Returns p ->
  downstream (length (next_calls w)) = Returns tt ->
  authMiddleware host req downstream w
    = (Returns None, after_admit (jwt_id p) (after_verify tok AK w)).
Proof.
  intros C V D. rewrite authMiddleware_blocks, C.
  rewrite (verified_truthy _ _ _ V). simpl.
  destruct tok as [|c t]; [by rewrite jwt_must_be_provided in V |].
  unfold bind, access_block, when_truthy, try_catch, bind, verify.
  rewrite V. unfold c_set_userId, modify, next. simpl. by rewrite D.
Qed.

(** With a handler that returns, a verified access token is all the
    middleware looks at: one call into jsonwebtoken, the subject attached,
    the handler invoked once, nothing written and nothing logged. *)
Lemma access_token_wins_when_handler_returns w tok p :
  getCookie req "accessToken" = Some tok ->
  jwt_verify tok AK clock = Returns p ->
  downstream (length (next_calls w)) = Returns tt ->
  exists w',
    authMiddleware host req downstream w = (Returns None, w') /\
    ctx_userId w' = Some (jwt_id p) /\
    res_setCookie w' = res_setCookie w /\
    jwt_calls w' = jwt_calls w ++ [VerifyCall tok AK] /\
    next_calls w' = next_calls w ++ [Some (jwt_id p)] /\
    fs w' = fs w /\ console w' = console w.
Proof.
  intros C V D. eexists. split; [by apply access_admits_run |]. by repeat split.
Qed.

(** *** What a run may touch *)

(** The calls the middleware may make into jsonwebtoken: each cookie is
    verified against its own key only, and only access tokens are signed. *)
Definition allowed_call (c : JwtCall) : Prop :=
  match c with
  | VerifyCall t k =>
      (getCookie req "accessToken" = Some t /\ k = AK) \/
      (getCookie req "refreshToken" = Some t /\ k = RK)
  | SignCall _ k o => k = AK /\ o = {| expiresIn := "1h" |}
  end.

(** [cookie] of the request verifies under [secret], for subject [uid]. *)
Definition subject_of (cookie secret uid : string) : Prop :=
  exists tok p,
    getCookie req cookie = Some tok /\
    jwt_verify tok secret clock = Returns p /\ uid = jwt_id p.

(** [userId] is left alone, or it is the subject of one of the request's
    two cookies, verified against that cookie's own key. *)
Definition userId_from_token (w w' : World) : Prop :=
  ctx_userId w' = ctx_userId w \/
  exists uid,
    ctx_userId w' = Some uid /\
    (subject_of "accessToken" AK uid \/ subject_of "refreshToken" RK uid).

Record effects (w w' : World) (new : list Cookie) : Prop := Effects {
  ef_setCookie : res_setCookie w' = res_setCookie w ++ new;
  ef_fs : fs_appended host (fs w) (fs w');
  ef_userId : userId_from_token w w';
  ef_jwt_calls : exists calls, jwt_calls w' = jwt_calls w ++ calls /\ Forall allowed_call calls
}.

Lemma userId_from_token_trans w1 w2 w3 :
  userId_from_token w1 w2 -> userId_from_token w2 w3 -> userId_from_token w1 w3.
Proof.
  intros [E1|(u1 & E1 & S1)] [E2|(u2 & E2 & S2)].
  - left. congruence.
  - right. eauto.
  - right. exists u1. split; [congruence | done].
  - right. eauto.
Qed.

Lemma effects_trans w1 w2 w3 new1 new2 :
  effects w1 w2 new1 -> effects w2 w3 new2 -> effects w1 w3 (new1 ++ new2).
Proof.
  intros [C1 F1 U1 (c1 & J1 & A1)] [C2 F2 U2 (c2 & J2 & A2)]. split.
  - by rewrite C2, C1, app_assoc.
  - eauto using fs_appended_trans.
  - eauto using userId_from_token_trans.
  - exists (c1 ++ c2). split; [by rewrite J2, J1, app_assoc | by apply Forall_app].
Qed.

Lemma effects_logs_only w w' : logs_only host w w' -> effects w w' [].
Proof.
  intros [U C J N F O]. split.
  - by rewrite app_nil_r.
  - done.
  - by left.
  - exists []. by rewrite app_nil_r.
Qed.

Lemma effects_refl w : effects w w [].
Proof. apply effects_logs_only, logs_only_refl. Qed.

Lemma effects_after_verify tok k w :
  allowed_call (VerifyCall tok k) -> effects w (after_verify tok k w) [].
Proof.
  intros A. split; simpl.
  - by rewrite app_nil_r.
  - apply fs_appended_refl.
  - by left.
  - exists [VerifyCall tok k]. split; [done | by constructor].
Qed.

Lemma effects_after_admit uid w :
  subject_of "accessToken" AK uid \/ subject_of "refreshToken" RK uid ->
  effects w (after_admit uid w) [].
Proof.
  intros V. split; simpl.
  - by rewrite app_nil_r.
  - apply fs_appended_refl.
  - right. eauto.
  - exists []. by rewrite app_nil_r.
Qed.

Lemma effects_after_sign uid w : effects w (after_sign uid w) [].
Proof.
  split; simpl.
  - by rewrite app_nil_r.
  - apply fs_appended_refl.
  - by left.
  - eexists. split; [done |]. by repeat constructor.
Qed.

Lemma effects_after_mint uid t w :
  effects w (after_mint uid t w) [renewed_cookie t].
Proof.
  split; simpl.
  - done.
  - apply fs_appended_refl.
  - by left.
  - eexists. split; [done |]. by repeat constructor.
Qed.

Lemma access_run_effects w f w1 :
  access_run (getCookie req "accessToken") w f w1 -> effects w w1 [].
Proof.
  intros R. inversion R; subst.
  - apply effects_refl.
  - change (@nil Cookie) with (@nil Cookie ++ []).
    eapply effects_trans; [apply (effects_after_verify tok AK); simpl; auto |].
    by apply effects_logs_only.
  - change (@nil Cookie) with (@nil Cookie ++ []).
    eapply effects_trans; [apply (effects_after_verify tok AK); simpl; auto |].
    apply effects_after_admit. left. by exists tok, p.
  - change (@nil Cookie) with (@nil Cookie ++ [] ++ []).
    eapply effects_trans; [apply (effects_after_verify tok AK); simpl; auto |].
    eapply effects_trans; [apply effects_after_admit; left; by exists tok, p |].
    by apply effects_logs_only.
Qed.

(** The refresh block writes a cookie on one path only: the refresh token
    verified and [jwt.sign] returned the token the cookie holds. *)
Definition renewal (new : list Cookie) : Prop :=
  new = [] \/
  exists rt q t,
    getCookie req "refreshToken" = Some rt /\
    jwt_verify rt RK clock = Returns q /\
    mint (jwt_id q) = Returns t /\
    new = [renewed_cookie t].

Lemma refresh_run_effects w f w1 :
  refresh_run (getCookie req "refreshToken") w f w1 ->
  exists new, effects w w1 new /\ renewal new.
Proof.
  intros R. inversion R; subst.
  - exists []. split; [apply effects_refl | by left].
  - exists []. split; [| by left].
    change (@nil Cookie) with (@nil Cookie ++ []).
    eapply effects_trans; [apply (effects_after_verify tok RK); simpl; auto |].
    by apply effects_logs_only.
  - exists []. split; [| by left].
    change (@nil Cookie) with (@nil Cookie ++ [] ++ []).
    eapply effects_trans; [apply (effects_after_verify tok RK); simpl; auto |].
    eapply effects_trans; [apply effects_after_sign |].
    by apply effects_logs_only.
  - exists [renewed_cookie t]. split; [| right; eauto 10].
    change [renewed_cookie t] with ([] ++ [renewed_cookie t] ++ [] ++ []).
    eapply effects_trans; [apply (effects_after_verify tok RK); simpl; auto |].
    eapply effects_trans; [apply effects_after_mint |].
    eapply effects_trans; [apply effects_after_admit; right; by exists tok, q |].
    by apply effects_logs_only.
  - exists [renewed_cookie t]. split; [| right; eauto 10].
    change [renewed_cookie t] with ([] ++ [renewed_cookie t] ++ [] ++ []).
    eapply effects_trans; [apply (effects_after_verify tok RK); simpl; auto |].
    eapply effects_trans; [apply effects_after_mint |].
    eapply effects_trans; [apply effects_after_admit; right; by exists tok, q |].
    by apply effects_logs_only.
Qed.

Lemma auth_run_effects w r w' :
  auth_run w r w' -> exists new, effects w w' new /\ renewal new.
Proof.
  intros R. inversion R; subst.
  - exists []. split; [by apply effects_logs_only | by left].
  - exists []. split; [by eapply access_run_effects | by left].
  - match goal with R : refresh_run _ _ _ _ |- _ =>
      destruct (refresh_run_effects _ _ _ R) as (new & Ef & Rn) end.
    exists new. split; [| done].
    change new with ([] ++ new).
    eapply effects_trans; [by eapply access_run_effects | done].
  - match goal with R : refresh_run _ _ _ _ |- _ =>
      destruct (refresh_run_effects _ _ _ R) as (new & Ef & Rn) end.
    exists new. split; [| done].
    replace new with ([] ++ new ++ []) by (simpl; by rewrite app_nil_r).
    eapply effects_trans; [by eapply access_run_effects |].
    eapply effects_trans; [done | by apply effects_logs_only].
Qed.

Lemma prints_extend w w1 w' line :
  prints w w1 line -> (exists more, console w' = console w1 ++ more) ->
  prints w w' line.
Proof.
  intros (pre & post & E) [more C].
  exists pre, (post ++ more). rewrite C, E. by rewrite <- !app_assoc.
Qed.

(** Whatever the cause, a response from the middleware is the same one. *)
Lemma response_is_generic w r w' :
  authMiddleware host req downstream w = (Returns (Some r), w') ->
  r = {| status := 401; body := [("error", "Unauthorized")] |}.
Proof.
  intros E. destruct (authMiddleware_run w) as (r0 & w0 & E0 & R).
  rewrite E in E0. inversion E0; subst. by inversion R.
Qed.

(** The request context and the console: the middleware moves them only
    through its logger, on every path and however [next()] ends. *)
Lemma keeps_authMiddleware : keeps host req (authMiddleware host req downstream).
Proof.
  unfold authMiddleware, when_truthy, c_json.
  destruct (negb _ && negb _);
    destruct (getCookie req "accessToken") as [[|ca ta]|];
    destruct (getCookie req "refreshToken") as [[|cr tr]|].
  all: repeat match goal with
              | |- forall _, _ => intro
              | |- keeps _ _ (logger_warn _ _ _ _) => apply keeps_logger_warn
              | |- keeps _ _ (logger_info _ _ _ _) => apply keeps_logger_info
              | |- keeps _ _ (logger_debug _ _ _ _) => apply keeps_logger_debug
              | |- keeps _ _ (bind _ _) => apply keeps_bind
              | |- keeps _ _ (try_catch _ _) => apply keeps_try_catch
              | |- keeps _ _ (ret _) => apply keeps_ret
              | |- keeps _ _ (match ?x with _ => _ end) => destruct x
              | |- keeps _ _ _ => by apply keeps_silent
              end.
Qed.

(** The run of a request whose access token is no use and whose refresh
    token verifies, by what [jwt.sign] and [next()] do. *)
Lemma renewal_run w rt q :
  fails_verification (getCookie req "accessToken") AK = true ->
  getCookie req "refreshToken" = Some rt ->
  jwt_verify rt RK clock = Returns q ->
  exists r w',
    authMiddleware host req downstream w = (Returns r, w') /\
    match mint (jwt_id q) with
    | Returns t =>
        ctx_userId w' = Some (jwt_id q) /\
        res_setCookie w' = res_setCookie w ++ [renewed_cookie t] /\
        next_calls w' = next_calls w ++ [Some (jwt_id q)] /\
        r = match downstream (length (next_calls w)) with
            | Returns _ => None
            | Throws _ => Some {| status := 401; body := Unauthorized |}
            end
    | Throws _ =>
        r = Some {| status := 401; body := Unauthorized |} /\
        ctx_userId w' = ctx_userId w /\
        res_setCookie w' = res_setCookie w /\
        next_calls w' = next_calls w
    end.
Proof.
  intros Fa C V.
  pose proof (verified_truthy _ _ _ V) as T.
  destruct (authMiddleware_run w) as (r & w' & E & R).
  exists r, w'. split; [done |].
  inversion R; subst; failed_blocks; try discriminate.
  - congruence.
  - match goal with R : refresh_run _ _ _ _ |- _ => inversion R; subst end.
    same.
    match goal with S : mint _ = _, D : downstream _ = _ |- _ => rewrite S end.
    frames.
    match goal with D : downstream (length (next_calls w1)) = _ |- _ =>
      replace (next_calls w1) with (next_calls w) in D by congruence; rewrite D end.
    repeat split; congruence.
  - match goal with R : refresh_run _ _ _ _ |- _ => inversion R; subst end;
      try congruence; same.
    + match goal with S : mint _ = _ |- _ => rewrite S end.
      frames. repeat split; congruence.
    + match goal with S : mint _ = _ |- _ => rewrite S end.
      frames.
      match goal with D : downstream (length (next_calls w1)) = _ |- _ =>
        replace (next_calls w1) with (next_calls w) in D by congruence; rewrite D end.
      repeat split; congruence.
Qed.

(** ** The claims *)



(** C3.  When no presented token verifies (each cookie is absent, empty or
    rejected by [jwt.verify]) the middleware answers 401 with the generic
    body, writes no cookie, does not invoke the handler and attaches no
    subject. *)
Theorem no_valid_token_unauthenticated w :
  fails_verification (getCookie req "accessToken") AK = true ->
  fails_verification (getCookie req "refreshToken") RK = true ->
  exists w',
    authMiddleware host req downstream w
      = (Returns (Some {| status := 401; body := [("error", "Unauthorized")] |}), w') /\
    res_setCookie w' = res_setCookie w /\
    next_calls w' = next_calls w /\
    ctx_userId w' = ctx_userId w.
Proof.
  intros Fa Fr.
  destruct (no_valid_token_run w Fa Fr) as (w' & E & Q).
  exists w'. split; [exact E |]. frames. auto.
Qed.

(** C6, as the specification words it: no refreshToken cookie, at most one
    accessToken cookie, and no file touched. *)
Definition frame_as_claimed (w : World) : Prop :=
  let w' := snd (authMiddleware host req downstream w) in
  exists new,
    res_setCookie w' = res_setCookie w ++ new /\
    Forall (fun c => cookie_name c = "accessToken") new /\
    length new <= 1 /\
    fs w' = fs w.

(** C6 (amended).  For every request the middleware returns.  It writes
    no refreshToken cookie and at most one accessToken cookie, and that one
    only when the request's refreshToken cookie verified against the
    refresh key and [jwt.sign] returned the token it holds.  [userId] is
    left alone or set to the subject [jwt.verify] returned for the
    request's accessToken cookie under the access key, or for its
    refreshToken cookie under the refresh key.  Every call into
    jsonwebtoken pairs a cookie with its own key.  All else is the
    logger's doing: [requestContext] is left alone or, when unset, set to
    the context built from this request; the console gains lines of the
    logger; and the only files touched are the day's log files, which grow
    by appended lines. *)
Theorem middleware_frame w :
  exists r w' new,
    authMiddleware host req downstream w = (Returns r, w') /\
    res_setCookie w' = res_setCookie w ++ new /\
    Forall (fun c => cookie_name c = "accessToken") new /\
    length new <= 1 /\
    (forall c, c ∈ new ->
       exists rt q,
         getCookie req "refreshToken" = Some rt /\
         jwt_verify rt RK clock = Returns q /\
         jwt_sign {| jwt_id := jwt_id q |} AK {| expiresIn := "1h" |} clock
           = Returns (cookie_value c)) /\
    (ctx_userId w' = ctx_userId w \/
     exists uid,
       ctx_userId w' = Some uid /\
       ((exists tok p,
           getCookie req "accessToken" = Some tok /\
           jwt_verify tok AK clock = Returns p /\ uid = jwt_id p) \/
        (exists tok p,
           getCookie req "refreshToken" = Some tok /\
           jwt_verify tok RK clock = Returns p /\ uid = jwt_id p))) /\
    (exists calls, jwt_calls w' = jwt_calls w ++ calls /\ Forall allowed_call calls) /\
    (ctx_requestContext w' = ctx_requestContext w \/
     (ctx_requestContext w = None /\
      ctx_requestContext w' = Some (new_requestContext host req))) /\
    (exists lines, console w' = console w ++ lines /\ Forall (logger_line host) lines) /\
    (forall p : string,
       (exists more, default [] (fs w' !! p) = default [] (fs w !! p) ++ more) /\
       (~ is_log_file host p -> fs w' !! p = fs w !! p)).
Proof.
  destruct (authMiddleware_run w) as (r & w' & E & R).
  destruct (auth_run_effects _ _ _ R) as (new & [C F U J] & Rn).
  pose proof (keeps_authMiddleware w) as [Rc Co]. rewrite E in Rc, Co. simpl in Rc, Co.
  exists r, w', new. split; [exact E |]. split; [exact C |].
  assert (Hnew : Forall (fun c => cookie_name c = "accessToken") new /\
                 length new <= 1 /\
                 (forall c, c ∈ new ->
                    exists rt q,
                      getCookie req "refreshToken" = Some rt /\
                      jwt_verify rt RK clock = Returns q /\
                      jwt_sign {| jwt_id := jwt_id q |} AK {| expiresIn := "1h" |} clock
                        = Returns (cookie_value c))).
  { destruct Rn as [->|(rt & q & t & Cr & V & S & ->)].
    - split; [constructor |]. split; [simpl; lia |]. by intros c ?%elem_of_nil.
    - split; [by repeat constructor |]. split; [simpl; lia |].
      intros c ->%list_elem_of_singleton. by exists rt, q. }
  destruct Hnew as (N1 & N2 & N3).
  repeat (split; [done |]). exact F.
Qed.

(** C8.  Every cookie the middleware writes is named accessToken and
    carries exactly path "/", httpOnly, secure and sameSite "strict" (no
    other attribute is set), which are the attributes of the access cookie
    that login and register issue. *)
Theorem renewed_cookie_attributes w :
  exists new,
    res_setCookie (snd (authMiddleware host req downstream w)) = res_setCookie w ++ new /\
    Forall (fun c =>
              cookie_name c = "accessToken" /\
              cookie_opts c =
                {| domain := None; expires := None; httpOnly := Some true;
                   maxAge := None; path := Some "/"; secure := Some true;
                   sameSite := Some "strict"; partitioned := None;
                   priority := None; prefix := None |}) new /\
    forall tokens w0 c,
      res_setCookie (snd (set_session_cookies tokens w0))
        = res_setCookie w0 ++
            [{| cookie_name := "accessToken"; cookie_value := fst tokens;
                cookie_opts := cookieOptions.access |};
             {| cookie_name := "refreshToken"; cookie_value := snd tokens;
                cookie_opts := cookieOptions.refresh |}] /\
      (c ∈ new -> cookie_opts c = cookieOptions.access).
Proof.
  destruct (authMiddleware_run w) as (r & w' & E & R).
  destruct (auth_run_effects _ _ _ R) as (new & [C F U J] & Rn).
  exists new. rewrite E. split; [exact C |].
  destruct Rn as [->|(rt & q & t & Cr & V & S & ->)].
  - split; [constructor |]. intros tokens w0 c.
    split; [simpl; by rewrite <- app_assoc |].
    by intros ?%elem_of_nil.
  - split; [by repeat constructor |]. intros tokens w0 c.
    split; [simpl; by rewrite <- app_assoc |].
    by intros ->%list_elem_of_singleton.
Qed.

(** C9 (amended).  A valid access token admits the request, the promise
    returned by [next()] rejects, and a valid refresh token is present: the
    [catch] of the access block takes the rejection for a failed
    verification (the block falls through, and in development prints
    "Access token invalid, attempting refresh" with the message of what was
    thrown), and the refresh token is verified and a token signed for its
    subject.
    - If [jwt.sign] returns a token, the accessToken cookie holding it is
      written, [userId] becomes the refresh token's subject and [next()] is
      called a second time, as that subject; the request goes through when
      that second call resolves and is answered 401 when it rejects.
    - If [jwt.sign] throws, the answer is 401, with no cookie written, no
      second call of [next()], and [userId] still the access token's
      subject. *)
Theorem handler_exception_triggers_refresh w tok p e rt q :
  getCookie req "accessToken" = Some tok ->
  jwt_verify tok AK clock = Returns p ->
  downstream (length (next_calls w)) = Throws e ->
  getCookie req "refreshToken" = Some rt ->
  jwt_verify rt RK clock = Returns q ->
  exists r w',
    authMiddleware host req downstream w = (Returns r, w') /\
    (exists w1, access_block (Some tok) w = (Returns FallThrough, w1)) /\
    (NODE_ENV (env host) = Some "development" ->
     prints w w'
       (printed host lvl_debug "Access token invalid, attempting refresh"
          [("error", error_message e)])) /\
    jwt_calls w' =
      jwt_calls w ++
        [VerifyCall tok AK; VerifyCall rt RK;
         SignCall {| jwt_id := jwt_id q |} AK {| expiresIn := "1h" |}] /\
    match jwt_sign {| jwt_id := jwt_id q |} AK {| expiresIn := "1h" |}
            (Date_now host / 1000) with
    | Returns newAccessToken =>
        res_setCookie w' =
          res_setCookie w ++
            [{| cookie_name := "accessToken";
                cookie_value := newAccessToken;
                cookie_opts := cookieOptions.access |}] /\
        next_calls w' = next_calls w ++ [Some (jwt_id p); Some (jwt_id q)] /\
        ctx_userId w' = Some (jwt_id q) /\
        r = match downstream (S (length (next_calls w))) with
            | Returns _ => None
            | Throws _ => Some {| status := 401; body := [("error", "Unauthorized")] |}
            end
    | Throws _ =>
        res_setCookie w' = res_setCookie w /\
        next_calls w' = next_calls w ++ [Some (jwt_id p)] /\
        ctx_userId w' = Some (jwt_id p) /\
        r = Some {| status := 401; body := [("error", "Unauthorized")] |}
    end.
Proof.
  intros Ca Va D Cr Vr.
  pose proof (verified_truthy _ _ _ Va) as Ta.
  pose proof (verified_truthy _ _ _ Vr) as Tr.
  destruct (authMiddleware_run w) as (r & w' & E & R).
  exists r, w'. split; [exact E |].
  change (Date_now host / 1000)%Z with clock.
  fold (mint (jwt_id q)). fold (access_catch_line e).
  split.
  { destruct (access_block_run (Some tok) w) as (f & w1 & E1 & R1).
    exists w1. inversion R1; subst; same; congruence. }
  inversion R; subst; invert_runs; try congruence; same.
  all: try match goal with
           | L : logs_only host ?X ?w2, L' : logs_only host ?w2 _ |- _ =>
               pose proof (logs_only_trans _ _ _ _ L L'); clear L L'
           end.
  all: match goal with
       | L : logs_only host (_ (after_verify _ _ _)) _ |- _ =>
           split;
             [intros dev; eapply prints_extend;
                [eauto | exact (lo_console _ _ _ L)] |]
       | L : logs_only host (_ (_ (after_verify _ _ _))) _ |- _ =>
           split;
             [intros dev; eapply prints_extend;
                [eauto | exact (lo_console _ _ _ L)] |]
       end.
  all: match goal with S : mint _ = _ |- _ => rewrite S end.
  all: frames.
  all: repeat match goal with
              | H : next_calls ?x = _, D : context [next_calls ?x] |- _ => rewrite H in D
              end.
  all: rewrite ?length_app in *; simpl in *.
  all: try replace (length (next_calls w) + 1) with (S (length (next_calls w))) in * by lia.
  all: repeat match goal with
              | D : downstream ?n = _ |- context [downstream ?n] => rewrite D
              end.
  all: repeat split; chase; done.
Qed.

(** C10.  Both cookies present but empty: the presence check takes them
    for absent, the request is answered on the no-tokens branch (401,
    "Auth failed - No tokens provided") and jsonwebtoken is never called. *)
Theorem empty_cookies_are_no_tokens w :
  getCookie req "accessToken" = Some "" ->
  getCookie req "refreshToken" = Some "" ->
  authMiddleware host req downstream w = reject_no_tokens w /\
  exists w',
    authMiddleware host req downstream w
      = (Returns (Some {| status := 401; body := [("error", "Unauthorized")] |}), w') /\
    prints w w' (printed host lvl_warn "Auth failed - No tokens provided" []) /\
    jwt_calls w' = jwt_calls w /\
    next_calls w' = next_calls w /\
    res_setCookie w' = res_setCookie w.
Proof.
  intros Ca Cr.
  assert (E : authMiddleware host req downstream w = reject_no_tokens w)
    by (by rewrite authMiddleware_blocks, Ca, Cr).
  split; [exact E |]. rewrite E.
  destruct (reject_run "Auth failed - No tokens provided" w) as (w' & E' & L & P).
  exists w'. split; [exact E' |]. split; [exact P |]. frames. auto.
Qed.
End Runs.

(** C4.  Two requests that both end in authentication failure, whatever
    the cause of each, get the same response: status 401 with the generic
    body.  When the cause is one of the three the specification names (no
    token presented verifies), no cookie is added to the response either,
    so nothing tells the client which credential failed. *)
Theorem rejections_indistinguishable `{lib : Jsonwebtoken}
    (host1 host2 : Host) (req1 req2 : HonoRequest)
    (downstream1 downstream2 : nat -> Outcome unit)
    (w1 w2 w1' w2' : World) (r1 r2 : Response) :
  authMiddleware host1 req1 downstream1 w1 = (Returns (Some r1), w1') ->
  authMiddleware host2 req2 downstream2 w2 = (Returns (Some r2), w2') ->
  r1 = r2 /\
  status r1 = 401%Z /\
  body r1 = [("error", "Unauthorized")] /\
  (fails_verification host1 (getCookie req1 "accessToken")
     (ACCESS_TOKEN_SECRET (env host1)) = true ->
   fails_verification host1 (getCookie req1 "refreshToken")
     (REFRESH_TOKEN_SECRET (env host1)) = true ->
   res_setCookie w1' = res_setCookie w1) /\
  (fails_verification host2 (getCookie req2 "accessToken")
     (ACCESS_TOKEN_SECRET (env host2)) = true ->
   fails_verification host2 (getCookie req2 "refreshToken")
     (REFRESH_TOKEN_SECRET (env host2)) = true ->
   res_setCookie w2' = res_setCookie w2).
Proof.
  intros E1 E2.
  pose proof (response_is_generic _ _ _ _ _ _ E1) as ->.
  pose proof (response_is_generic _ _ _ _ _ _ E2) as ->.
  split; [done |]. split; [done |]. split; [done |]. split.
  - intros Fa Fr.
    destruct (no_valid_token_run host1 req1 downstream1 w1 Fa Fr) as (w & E & Q).
    rewrite E1 in E. inversion E; subst. by destruct Q.
  - intros Fa Fr.
    destruct (no_valid_token_run host2 req2 downstream2 w2 Fa Fr) as (w & E & Q).
    rewrite E2 in E. inversion E; subst. by destruct Q.
Qed.

(** ** The claims on concrete requests *)

Section Scenarios.
Import Fixture.

Definition run (cookies : list (string * string)) (handler : nat -> Outcome unit) :
    Outcome (option Response) * World :=
  authMiddleware (lib := RefJwt.lib) host0 (request cookies) handler fresh.

(** The fixtures are what login issues at second 1000 (and what it would
    issue for "u2"). *)
Example fixtures_minted :
  fst (issue_tokens (lib := RefJwt.lib) host0 "u1" fresh) = Returns (access_u1, refresh_u1) /\
  fst (issue_tokens (lib := RefJwt.lib) host0 "u2" fresh) = Returns ("u2.4600.ak", refresh_u2).
Proof. by vm_compute. Qed.

(** Scenario of the specification: no access token, refresh token valid
    for "u1".  The cookie written decodes to "u1" under the access key
    until one hour after the request, and not later. *)
Example scenario_refresh_only :
  let w := snd (run [("refreshToken", refresh_u1)] handler_ok) in
  fst (run [("refreshToken", refresh_u1)] handler_ok) = Returns None /\
  ctx_userId w = Some "u1" /\
  (exists c, res_setCookie w = [c] /\ cookie_name c = "accessToken" /\
     RefJwt.sign {| jwt_id := "u1" |} "ak" {| expiresIn := "1h" |} 1000
       = Returns (cookie_value c) /\
     RefJwt.verify (cookie_value c) "ak" (1000 + 3599) = Returns {| jwt_id := "u1" |} /\
     RefJwt.verify (cookie_value c) "ak" (1000 + 3600) = Throws (ErrorObject "jwt expired")).
Proof.
  vm_compute. split; [done |]. split; [done |]. eexists. by repeat split.
Qed.

(** The cookie written in that request, presented 1000 seconds later, is
    accepted on the access path: same subject, nothing written. *)
Example scenario_renewed_cookie_accepted :
  let renewed := res_setCookie (snd (run [("refreshToken", refresh_u1)] handler_ok)) in
  let later :=
    authMiddleware (lib := RefJwt.lib) host1
      (request ((fun c => (cookie_name c, cookie_value c)) <$> renewed))
      handler_ok fresh in
  fst later = Returns None /\
  ctx_userId (snd later) = Some "u1" /\
  res_setCookie (snd later) = [].
Proof. by vm_compute. Qed.

(** The reference library tells the two keys apart. *)
Example scenario_wrong_key :
  RefJwt.verify refresh_u1 "ak" 1000 = Throws (ErrorObject "invalid signature") /\
  RefJwt.verify access_u1 "rk" 1000 = Throws (ErrorObject "invalid signature").
Proof. by vm_compute. Qed.

(** C1 fails on the code.  The accessToken cookie verifies for "u1", the
    refreshToken cookie verifies for "u2", and [next()] rejects when first
    invoked.  [await next()] sits inside the [try] whose [catch] is written
    for an invalid access token, so the refresh token is verified after
    all and a cookie for "u2" is written.  If the second [next()] resolves
    the request ends as "u2"; if it rejects too, the request with a valid
    access token is answered 401. *)
Theorem valid_access_token_handler_raises :
  let cookies := [("accessToken", access_u1); ("refreshToken", refresh_u2)] in
  let renewed :=
    {| cookie_name := "accessToken"; cookie_value := "u2.4600.ak";
       cookie_opts := cookieOptions.access |} in
  let calls :=
    [VerifyCall access_u1 "ak"; VerifyCall refresh_u2 "rk";
     SignCall {| jwt_id := "u2" |} "ak" {| expiresIn := "1h" |}] in
  @jwt_verify RefJwt.lib access_u1 "ak" (clockTimestamp host0)
    = Returns {| jwt_id := "u1" |} /\
  (let w := snd (run cookies handler_fails_once) in
   fst (run cookies handler_fails_once) = Returns None /\
   ctx_userId w = Some "u2" /\
   res_setCookie w = [renewed] /\
   jwt_calls w = calls /\
   next_calls w = [Some "u1"; Some "u2"]) /\
  (let w := snd (run cookies handler_rejects) in
   fst (run cookies handler_rejects)
     = Returns (Some {| status := 401; body := [("error", "Unauthorized")] |}) /\
   ctx_userId w = Some "u2" /\
   res_setCookie w = [renewed] /\
   jwt_calls w = calls /\
   next_calls w = [Some "u1"; Some "u2"]).
Proof. vm_compute. by repeat split. Qed.

(** C7 fails on the code, by the same [try] around [await next()].  The
    same access token, valid at both times, is presented in two requests;
    in the second a refresh token for "u2" comes along and [next()] rejects
    when first invoked.  The first request runs as "u1" and writes
    nothing; the second ends as "u2" and writes a cookie. *)
Theorem same_access_token_different_subject :
  let first := run [("accessToken", access_u1)] handler_ok in
  let second :=
    authMiddleware (lib := RefJwt.lib) host1
      (request [("accessToken", access_u1); ("refreshToken", refresh_u2)])
      handler_fails_once fresh in
  @jwt_verify RefJwt.lib access_u1 "ak" (clockTimestamp host0)
    = Returns {| jwt_id := "u1" |} /\
  @jwt_verify RefJwt.lib access_u1 "ak" (clockTimestamp host1)
    = Returns {| jwt_id := "u1" |} /\
  ctx_userId (snd first) = Some "u1" /\
  res_setCookie (snd first) = [] /\
  ctx_userId (snd second) = Some "u2" /\
  res_setCookie (snd second) =
    [{| cookie_name := "accessToken"; cookie_value := "u2.5600.ak";
        cookie_opts := cookieOptions.access |}].
Proof. vm_compute. by repeat split. Qed.

(** C6 fails as worded: a request without cookies makes the logger append
    to the day's log files. *)
Lemma middleware_appends_to_log_files :
  ~ frame_as_claimed (lib := RefJwt.lib) host0 (request []) handler_ok fresh.
Proof.
  intros (new & _ & _ & _ & Hfs).
  apply (f_equal (fun m => m !! "/app/logs/2025-01-01-warn.log")) in Hfs.
  vm_compute in Hfs. discriminate Hfs.
Qed.



Lemma no_valid_token_unauthenticated_witness :
  exists w',
    run [("accessToken", expired_u1)] handler_ok
      = (Returns (Some {| status := 401; body := [("error", "Unauthorized")] |}), w') /\
    res_setCookie w' = [] /\ next_calls w' = [] /\ ctx_userId w' = None.
Proof.
  apply (no_valid_token_unauthenticated (lib := RefJwt.lib) host0
           (request [("accessToken", expired_u1)]) handler_ok fresh); reflexivity.
Defined.

Lemma rejections_indistinguishable_witness :
  let none := run [] handler_ok in
  let both := run [("accessToken", expired_u1); ("refreshToken", "garbage")] handler_ok in
  fst none = Returns (Some {| status := 401; body := [("error", "Unauthorized")] |}) /\
  fst both = Returns (Some {| status := 401; body := [("error", "Unauthorized")] |}) /\
  res_setCookie (snd none) = [] /\
  res_setCookie (snd both) = [].
Proof.
  pose proof
    (rejections_indistinguishable (lib := RefJwt.lib) host0 host0
       (request [])
       (request [("accessToken", expired_u1); ("refreshToken", "garbage")])
       handler_ok handler_ok fresh fresh
       (snd (run [] handler_ok))
       (snd (run [("accessToken", expired_u1); ("refreshToken", "garbage")] handler_ok))
       {| status := 401; body := [("error", "Unauthorized")] |}
       {| status := 401; body := [("error", "Unauthorized")] |}
       ltac:(vm_compute; reflexivity) ltac:(vm_compute; reflexivity))
    as (_ & _ & _ & C1 & C2).
  split; [vm_compute; reflexivity |]. split; [vm_compute; reflexivity |].
  split; [apply C1; reflexivity | apply C2; reflexivity].
Defined.

Lemma handler_exception_triggers_refresh_witness :
  exists r w',
    run [("accessToken", access_u1); ("refreshToken", refresh_u2)] handler_fails_once
      = (Returns r, w') /\
    (exists w1,
       access_block (lib := RefJwt.lib) host0
         (request [("accessToken", access_u1); ("refreshToken", refresh_u2)])
         handler_fails_once (Some access_u1) fresh = (Returns FallThrough, w1)) /\
    (NODE_ENV env0 = Some "development" ->
     prints fresh w'
       (printed host0 lvl_debug "Access token invalid, attempting refresh"
          [("error", "Unknown error")])) /\
    jwt_calls w' =
      [VerifyCall access_u1 "ak"; VerifyCall refresh_u2 "rk";
       SignCall {| jwt_id := "u2" |} "ak" {| expiresIn := "1h" |}] /\
    res_setCookie w' =
      [{| cookie_name := "accessToken"; cookie_value := "u2.4600.ak";
          cookie_opts := cookieOptions.access |}] /\
    next_calls w' = [Some "u1"; Some "u2"] /\
    ctx_userId w' = Some "u2" /\
    r = None.
Proof.
  apply (handler_exception_triggers_refresh (lib := RefJwt.lib) host0
           (request [("accessToken", access_u1); ("refreshToken", refresh_u2)])
           handler_fails_once fresh access_u1 {| jwt_id := "u1" |} OtherValue
           refresh_u2 {| jwt_id := "u2" |}); reflexivity.
Defined.

Lemma empty_cookies_are_no_tokens_witness :
  run [("accessToken", ""); ("refreshToken", "")] handler_ok
    = reject_no_tokens host0 (request [("accessToken", ""); ("refreshToken", "")]) fresh /\
  exists w',
    run [("accessToken", ""); ("refreshToken", "")] handler_ok
      = (Returns (Some {| status := 401; body := [("error", "Unauthorized")] |}), w') /\
    prints fresh w' (printed host0 lvl_warn "Auth failed - No tokens provided" []) /\
    jwt_calls w' = [] /\ next_calls w' = [] /\ res_setCookie w' = [].
Proof.
  apply (empty_cookies_are_no_tokens (lib := RefJwt.lib) host0
           (request [("accessToken", ""); ("refreshToken", "")]) handler_ok fresh);
    reflexivity.
Defined.
End Scenarios.


(** * Further properties of the code *)

(** ** [logger.ts]: where the lines go *)

Section LoggerFiles.
Variable host : Host.
Variable req : HonoRequest.

(** No ["T"] in a string: what [split("T")[0]] relies on. *)
Fixpoint no_T (s : string) : bool :=
  match s with
  | EmptyString => true
  | String c rest => negb (Ascii.eqb c "T"%char) && no_T rest
  end.

Lemma split_T_0_date (date time : string) :
  no_T date = true -> split_T_0 (date +:+ String "T"%char time) = date.
Proof.
  induction date as [|c date IH]; simpl; [done |].
  intros [Hc Hd]%andb_prop. apply negb_true_iff in Hc. rewrite Hc.
  by rewrite IH.
Qed.

Lemma append_inj_r (p a b : string) : p +:+ a = p +:+ b -> a = b.
Proof.
  induction p as [|c p IH]; simpl; [done |].
  intros E. injection E as E. by apply IH.
Qed.

Lemma log_filepath_inj lvl lvl' :
  log_filepath host lvl = log_filepath host lvl' -> lvl = lvl'.
Proof.
  unfold log_filepath, join. intros E.
  do 4 apply append_inj_r in E.
  by destruct lvl, lvl'.
Qed.

(** The line [log] hands to [writeToFile]. *)
Definition log_line (lvl : LogLevel) (msg : string) (d : LogData)
    (m : option RequestContext) : LogEntry :=
  {| timestamp := new_Date_toISOString host; level := lvl; message := msg;
     data := d; meta := m |}.

Definition file (w : World) (p : string) : list LogEntry := default [] (fs w !! p).

(** X1.  The log file of a level is named after the UTC day: with a
    timestamp [date ++ "T" ++ time] the file is
    [<cwd>/logs/<date>-<level>.log]. *)
Theorem log_file_named_by_day lvl (date time : string) :
  toISOString host (Date_now host) = date +:+ String "T"%char time ->
  no_T date = true ->
  log_filepath host lvl
    = (process_cwd host +:+ "/" +:+ "logs") +:+ "/" +:+
        (date +:+ "-" +:+ level_name lvl +:+ ".log").
Proof.
  intros E N. unfold log_filepath, join, logsDir, join, new_Date_toISOString.
  by rewrite E, split_T_0_date.
Qed.

(** What [log] writes for a level other than info, when both files can be
    appended to. *)
Lemma log_two_files lvl msg d m w :
  lvl <> lvl_info ->
  appendFileSync_ok host (log_filepath host lvl) = true ->
  appendFileSync_ok host (log_filepath host lvl_info) = true ->
  exists w',
    log host lvl msg d m w = (Returns tt, w') /\
    file w' (log_filepath host lvl) = file w (log_filepath host lvl) ++ [log_line lvl msg d m] /\
    file w' (log_filepath host lvl_info)
      = file w (log_filepath host lvl_info) ++ [log_line lvl msg d m] /\
    (forall p, p <> log_filepath host lvl -> p <> log_filepath host lvl_info ->
               fs w' !! p = fs w !! p) /\
    console w' = console w ++ [printed host lvl msg d] /\
    ctx_userId w' = ctx_userId w /\ res_setCookie w' = res_setCookie w.
Proof.
  intros Hl Ok1 Ok2.
  assert (Hp : log_filepath host lvl <> log_filepath host lvl_info)
    by (intros E; by apply log_filepath_inj in E).
  unfold log, bind, console_print, modify, writeToFile, try_catch, appendFileSync, modify.
  rewrite Ok1, Ok2. eexists. split; [reflexivity |].
  unfold file, log_line, formatLog, printed. simpl.
  split; [by rewrite lookup_insert_ne, lookup_insert_eq |].
  split; [by rewrite lookup_insert_eq, lookup_insert_ne |].
  split; [| done].
  intros p H1 H2. by rewrite !lookup_insert_ne.
Qed.

(** X2.  A message below or above info level lands once in its level's
    file and once in the day's info file; nothing else is written, and one
    line is printed. *)
Theorem log_writes_level_file_and_info_file lvl msg d m w :
  lvl <> lvl_info ->
  appendFileSync_ok host (log_filepath host lvl) = true ->
  appendFileSync_ok host (log_filepath host lvl_info) = true ->
  exists w',
    log host lvl msg d m w = (Returns tt, w') /\
    file w' (log_filepath host lvl) = file w (log_filepath host lvl) ++ [log_line lvl msg d m] /\
    file w' (log_filepath host lvl_info)
      = file w (log_filepath host lvl_info) ++ [log_line lvl msg d m] /\
    (forall p, p <> log_filepath host lvl -> p <> log_filepath host lvl_info ->
               fs w' !! p = fs w !! p) /\
    console w' = console w ++ [printed host lvl msg d].
Proof.
  intros Hl Ok1 Ok2.
  destruct (log_two_files lvl msg d m w Hl Ok1 Ok2) as (w' & E & F1 & F2 & Fo & Co & _).
  exists w'. auto.
Qed.

(** X3.  A message at info level is appended twice to the day's info file:
    once as its level's file and once as the combined log. *)
Theorem log_info_is_written_twice msg d m w :
  appendFileSync_ok host (log_filepath host lvl_info) = true ->
  exists w',
    log host lvl_info msg d m w = (Returns tt, w') /\
    file w' (log_filepath host lvl_info)
      = file w (log_filepath host lvl_info)
          ++ [log_line lvl_info msg d m; log_line lvl_info msg d m] /\
    (forall p, p <> log_filepath host lvl_info -> fs w' !! p = fs w !! p).
Proof.
  intros Ok.
  unfold log, bind, console_print, modify, writeToFile, try_catch, appendFileSync, modify.
  rewrite Ok. eexists. split; [reflexivity |].
  unfold file, log_line, formatLog. simpl. split.
  - rewrite !lookup_insert_eq. simpl. by rewrite <- app_assoc.
  - intros p H. by rewrite !lookup_insert_ne.
Qed.

(** X4.  When the files cannot be appended to, [log] still returns: the
    files are left as they were and each failed append is reported on the
    console after the message itself. *)
Theorem log_survives_failed_appends lvl msg d m w :
  appendFileSync_ok host (log_filepath host lvl) = false ->
  appendFileSync_ok host (log_filepath host lvl_info) = false ->
  exists w',
    log host lvl msg d m w = (Returns tt, w') /\
    fs w' = fs w /\
    console w' =
      console w ++
        [printed host lvl msg d;
         console_error "Failed to write to log file:";
         console_error "Failed to write to log file:"].
Proof.
  intros F1 F2.
  unfold log, bind, console_print, modify, writeToFile, try_catch, appendFileSync,
    console_print, modify, throw.
  rewrite F1, F2. eexists. split; [reflexivity |]. simpl.
  split; [done |]. unfold printed. by rewrite <- !app_assoc.
Qed.

(** X5.  The request context is built once per request: whatever
    [getRequestContext] returns is what every later call returns, also when
    the clock, the random id or the request headers it would read have
    changed; later calls change nothing. *)
Theorem request_context_is_stable w :
  exists rc w1,
    getRequestContext host req w = (Returns rc, w1) /\
    ctx_requestContext w1 = Some rc /\
    forall (host' : Host) (req' : HonoRequest),
      getRequestContext host' req' w1 = (Returns rc, w1).
Proof.
  unfold getRequestContext, bind, gets, modify, ret.
  destruct (ctx_requestContext w) as [rc|] eqn:E.
  - exists rc, w. repeat split; [done |]. intros host' req'. by rewrite E.
  - eexists _, _. split; [reflexivity |]. split; [reflexivity |]. done.
Qed.
End LoggerFiles.

(** ** [auth.ts]: what else the middleware guarantees *)

Section AuthMore.
Context `{lib : Jsonwebtoken}.
Variable host : Host.
Variable req : HonoRequest.
Variable downstream : nat -> Outcome unit.

Ltac unfold_steps :=
  unfold quiet in *;
  repeat match goal with
         | H : logs_only _ _ _ |- _ => destruct H as [? ? ? ? ? ?]
         end;
  unfold after_admit, after_mint, after_sign, after_verify in *; simpl in *.

Ltac split_runs :=
  repeat match goal with
         | R : access_run _ _ _ _ _ _ |- _ => inversion R; clear R; subst
         | R : refresh_run _ _ _ _ _ _ |- _ => inversion R; clear R; subst
         end.

Ltac identify :=
  repeat match goal with
         | H : ?x = Some ?a, H' : ?x = Some ?b |- _ =>
             assert (b = a) by congruence; subst b; clear H'
         | H : ?x = Returns ?a, H' : ?x = Returns ?b |- _ =>
             assert (b = a) by congruence; subst b; clear H'
         | H : ?x = Throws ?a, H' : ?x = Throws ?b |- _ =>
             assert (b = a) by congruence; subst b; clear H'
         end.

Ltac rewrite_fields :=
  repeat match goal with
         | H : jwt_calls ?x = _ |- context [jwt_calls ?x] => rewrite H
         | H : res_setCookie ?x = _ |- context [res_setCookie ?x] => rewrite H
         | H : next_calls ?x = _ |- context [next_calls ?x] => rewrite H
         | H : ctx_userId ?x = _ |- context [ctx_userId ?x] => rewrite H
         end;
  rewrite <- ?app_assoc; simpl.

(** X6.  A handler that fails is answered 401.  If [next()] rejects
    whenever the middleware awaits it (at most twice), no exception leaves
    the middleware and the client gets the generic 401, whatever cookies
    the request carried. *)
Theorem handler_failure_is_answered_401 w e1 e2 :
  downstream (length (next_calls w)) = Throws e1 ->
  downstream (S (length (next_calls w))) = Throws e2 ->
  exists w',
    authMiddleware host req downstream w
      = (Returns (Some {| status := 401; body := [("error", "Unauthorized")] |}), w').
Proof.
  intros D1 D2.
  destruct (authMiddleware_run host req downstream w) as (r & w' & E & R).
  exists w'. inversion R; subst; try exact E; split_runs; try congruence.
  all: unfold_steps.
  all: repeat match goal with
              | H : next_calls ?x = _, D : context [next_calls ?x] |- _ => rewrite H in D
              end.
  all: try rewrite length_app in *; simpl in *.
  all: try replace (length (next_calls w) + 1) with (S (length (next_calls w))) in * by lia.
  all: congruence.
Qed.

(** X7.  A 401 can carry a renewed cookie.  When the access token is
    unusable, the refresh token verifies, [jwt.sign] returns a token and
    [next()] rejects, the answer is the generic 401, yet the accessToken
    cookie holding that token has been written to the response and
    [userId] is set to the refresh token's subject. *)
Theorem rejection_after_renewal_keeps_cookie w rt q t e :
  fails_verification host (getCookie req "accessToken") (ACCESS_TOKEN_SECRET (env host)) = true ->
  getCookie req "refreshToken" = Some rt ->
  jwt_verify rt (REFRESH_TOKEN_SECRET (env host)) (clockTimestamp host) = Returns q ->
  jwt_sign {| jwt_id := jwt_id q |} (ACCESS_TOKEN_SECRET (env host)) {| expiresIn := "1h" |}
    (clockTimestamp host) = Returns t ->
  downstream (length (next_calls w)) = Throws e ->
  exists w',
    authMiddleware host req downstream w
      = (Returns (Some {| status := 401; body := [("error", "Unauthorized")] |}), w') /\
    res_setCookie w' = res_setCookie w ++ [renewed_cookie t] /\
    ctx_userId w' = Some (jwt_id q).
Proof.
  intros Fa C V S D.
  destruct (renewal_run host req downstream w rt q Fa C V) as (r & w' & E & H).
  unfold mint in H. rewrite S, D in H. destruct H as (U & K & _ & ->).
  by exists w'.
Qed.

(** X21.  A deployment without an access key cannot renew a session.  With
    [ACCESS_TOKEN_SECRET] empty, a request whose access token is no use is
    answered 401 whatever its refresh token: when the refresh token
    verifies, [jwt.sign] is called and refuses, and no cookie is written,
    no subject attached and [next()] not called. *)
Theorem no_access_key_no_renewal w :
  ACCESS_TOKEN_SECRET (env host) = "" ->
  fails_verification host (getCookie req "accessToken") (ACCESS_TOKEN_SECRET (env host)) = true ->
  exists w',
    authMiddleware host req downstream w
      = (Returns (Some {| status := 401; body := [("error", "Unauthorized")] |}), w') /\
    res_setCookie w' = res_setCookie w /\
    ctx_userId w' = ctx_userId w /\
    next_calls w' = next_calls w.
Proof.
  intros K Fa.
  destruct (fails_verification host (getCookie req "refreshToken")
              (REFRESH_TOKEN_SECRET (env host))) eqn:Fr.
  - destruct (no_valid_token_run host req downstream w Fa Fr) as (w' & E & Q).
    exists w'. split; [exact E |]. unfold_steps. auto.
  - unfold fails_verification in Fr.
    destruct (getCookie req "refreshToken") as [rt|] eqn:C; [| discriminate].
    destruct (jwt_verify rt _ _) as [q|] eqn:V; [| discriminate].
    destruct (renewal_run host req downstream w rt q Fa C V) as (r & w' & E & H).
    unfold mint in H. rewrite K, jwt_secret_must_have_value in H.
    destruct H as (-> & ? & ? & ?). by exists w'.
Qed.

(** The shapes the calls into jsonwebtoken can take in one request. *)
Definition call_order (calls : list JwtCall) : Prop :=
  let a := getCookie req "accessToken" in
  let r := getCookie req "refreshToken" in
  let AK := ACCESS_TOKEN_SECRET (env host) in
  let RK := REFRESH_TOKEN_SECRET (env host) in
  let minted rt p :=
    exists q, jwt_verify rt RK (clockTimestamp host) = Returns q /\
              p = {| jwt_id := jwt_id q |} in
  match calls with
  | [] => True
  | [VerifyCall t k] => (a = Some t /\ k = AK) \/ (r = Some t /\ k = RK)
  | [VerifyCall t k; VerifyCall t' k'] => a = Some t /\ k = AK /\ r = Some t' /\ k' = RK
  | [VerifyCall t k; SignCall p k' o] =>
      r = Some t /\ k = RK /\ k' = AK /\ o = {| expiresIn := "1h" |} /\ minted t p
  | [VerifyCall t k; VerifyCall t' k'; SignCall p k'' o] =>
      a = Some t /\ k = AK /\ r = Some t' /\ k' = RK /\ k'' = AK /\
      o = {| expiresIn := "1h" |} /\ minted t' p
  | _ => False
  end.

(** X8.  Order of the calls into jsonwebtoken.  The access token is
    verified before the refresh token, each against its own key; a token is
    signed only right after the refresh token verified, for that token's
    subject, with the access key and a one-hour lifetime; there are at most
    three calls. *)
Theorem jwt_calls_in_order w :
  exists r w' calls,
    authMiddleware host req downstream w = (Returns r, w') /\
    jwt_calls w' = jwt_calls w ++ calls /\
    call_order calls.
Proof.
  destruct (authMiddleware_run host req downstream w) as (r & w' & E & R).
  exists r, w'.
  inversion R; subst; split_runs; unfold_steps.
  all: eexists; split; [exact E |].
  all: split; [rewrite_fields; try reflexivity; by rewrite ?app_nil_r |].
  all: simpl; eauto 10.
Qed.
End AuthMore.

(** ** Across requests *)

(** X9.  With a handler that returns, a verified access token is all that
    counts: two requests with the same accessToken cookie, whatever else
    they carry (another refreshToken cookie, other headers, another URL),
    leave the context in exactly the same state. *)
Theorem access_path_ignores_the_rest_of_the_request `{lib : Jsonwebtoken}
    (host : Host) (req1 req2 : HonoRequest) (downstream : nat -> Outcome unit)
    (w : World) (tok : string) (p : JwtPayload) :
  getCookie req1 "accessToken" = Some tok ->
  getCookie req2 "accessToken" = Some tok ->
  jwt_verify tok (ACCESS_TOKEN_SECRET (env host)) (clockTimestamp host) = Returns p ->
  downstream (length (next_calls w)) = Returns tt ->
  authMiddleware host req1 downstream w = authMiddleware host req2 downstream w /\
  fst (authMiddleware host req1 downstream w) = Returns None /\
  fs (snd (authMiddleware host req1 downstream w)) = fs w.
Proof.
  intros C1 C2 V D.
  rewrite (access_admits_run host req1 downstream w tok p C1 V D).
  rewrite (access_admits_run host req2 downstream w tok p C2 V D).
  by repeat split.
Qed.

(** X10.  Silent renewal carries over to the next request.  A request
    whose access token is unusable and whose refresh token verifies gets an
    accessToken cookie holding the token [jwt.sign] returns; if the library
    accepts that token at the time of a later request to the same
    deployment, then that later request presenting the cookie, with a
    [next()] that resolves, runs as the same subject on the access path:
    one verification, no cookie written, refresh token not looked at. *)
Theorem renewed_cookie_is_accepted `{lib : Jsonwebtoken}
    (host1 host2 : Host) (req1 req2 : HonoRequest)
    (downstream1 downstream2 : nat -> Outcome unit) (w1 w2 : World)
    (rt renewed : string) (q : JwtPayload) :
  env host2 = env host1 ->
  fails_verification host1 (getCookie req1 "accessToken")
    (ACCESS_TOKEN_SECRET (env host1)) = true ->
  getCookie req1 "refreshToken" = Some rt ->
  jwt_verify rt (REFRESH_TOKEN_SECRET (env host1)) (clockTimestamp host1) = Returns q ->
  jwt_sign {| jwt_id := jwt_id q |} (ACCESS_TOKEN_SECRET (env host1))
    {| expiresIn := "1h" |} (clockTimestamp host1) = Returns renewed ->
  jwt_verify renewed (ACCESS_TOKEN_SECRET (env host1)) (clockTimestamp host2)
    = Returns {| jwt_id := jwt_id q |} ->
  getCookie req2 "accessToken" = Some renewed ->
  downstream2 (length (next_calls w2)) = Returns tt ->
  exists r1 w1' w2',
    authMiddleware host1 req1 downstream1 w1 = (Returns r1, w1') /\
    (exists c, res_setCookie w1' = res_setCookie w1 ++ [c] /\
               cookie_name c = "accessToken" /\ cookie_value c = renewed) /\
    authMiddleware host2 req2 downstream2 w2 = (Returns None, w2') /\
    ctx_userId w2' = Some (jwt_id q) /\
    res_setCookie w2' = res_setCookie w2 /\
    jwt_calls w2' = jwt_calls w2 ++ [VerifyCall renewed (ACCESS_TOKEN_SECRET (env host2))].
Proof.
  intros He Fa C V S Acc C2 D2.
  destruct (renewal_run host1 req1 downstream1 w1 rt q Fa C V) as (r1 & w1' & E1 & H).
  unfold mint in H. rewrite S in H. destruct H as (_ & Hc & _).
  exists r1, w1'.
  rewrite <- He in Acc.
  eexists. split; [exact E1 |]. split.
  { eexists. split; [exact Hc |]. by split. }
  split; [by apply (access_admits_run host2 req2 downstream2 w2 renewed _ C2 Acc D2) |].
  by rewrite He.
Qed.

(** ** The protected routes: [authMiddleware], then [injectUser], then the
    handler ([user-injection.ts], [profile.service.ts], [decorators.ts],
    [profile.controller.ts], [index.ts]) *)

(** The columns [ProfileService.getProfile] selects. *)
Record Profile : Type := {
  profile_id : string;
  profile_email : string;
  profile_createdAt : Z;
  profile_updatedAt : Z
}.

(** [getProfile] returns the row or [{ error: "User not found" }]. *)
Inductive ProfileResult : Type :=
| Found (user : Profile)
| NotFound (error : string).

(** The context as the later middleware see it: the world of
    [authMiddleware], the [user] variable, the response set so far, and
    (ghost) the ids looked up in the database. *)
Record App : Type := {
  world : World;
  ctx_user : option Profile;
  c_res : option Response;
  db_queries : list string
}.

Definition with_world (v : World) (s : App) : App :=
  {| world := v; ctx_user := ctx_user s; c_res := c_res s; db_queries := db_queries s |}.

Definition with_user (v : option Profile) (s : App) : App :=
  {| world := world s; ctx_user := v; c_res := c_res s; db_queries := db_queries s |}.

Definition with_res (v : option Response) (s : App) : App :=
  {| world := world s; ctx_user := ctx_user s; c_res := v; db_queries := db_queries s |}.

Definition with_db_queries (v : list string) (s : App) : App :=
  {| world := world s; ctx_user := ctx_user s; c_res := c_res s; db_queries := v |}.

Definition MA (A : Type) : Type := App -> Outcome A * App.

Definition retA {A} (a : A) : MA A := fun s => (Returns a, s).

Definition throwA {A} (e : Thrown) : MA A := fun s => (Throws e, s).

Definition bindA {A B} (m : MA A) (k : A -> MA B) : MA B :=
  fun s =>
    match m s with
    | (Returns a, s') => k a s'
    | (Throws e, s') => (Throws e, s')
    end.

Definition try_catchA {A} (body : MA A) (handler : Thrown -> MA A) : MA A :=
  fun s =>
    match body s with
    | (Returns a, s') => (Returns a, s')
    | (Throws e, s') => handler e s'
    end.

Definition modifyA (f : App -> App) : MA unit := fun s => (Returns tt, f s).

Definition getsA {A} (f : App -> A) : MA A := fun s => (Returns (f s), s).

(** Code that only touches the world of [authMiddleware]. *)
Definition liftA {A} (m : M A) : MA A :=
  fun s => let (o, w') := m (world s) in (o, with_world w' s).

Declare Scope app_scope.
Delimit Scope app_scope with app.
Notation "'let*' x ':=' m 'in' k" := (bindA m (fun x => k))
  (at level 10, x name, m at level 100, k at level 200) : app_scope.
Notation "m ';;' k" := (bindA m (fun _ => k))
  (at level 100, k at level 200, right associativity) : app_scope.
Local Open Scope app_scope.

Section ProtectedRoutes.
Context `{lib : Jsonwebtoken}.
Variable host : Host.
Variable req : HonoRequest.
(** [prisma.user.findUnique({ where: { id }, select: { id, email,
    createdAt, updatedAt } })]: the row, [null], or a database error. *)
Variable prisma_user_findUnique : string -> Outcome (option Profile).
(** A thrown value that is not an [Error], as the [catch] of [injectUser]
    meets it: how it shows in the log data, and, when [JSON.stringify]
    cannot serialise it (a circular object, a BigInt), the message of the
    [TypeError] that [JSON.stringify] throws. *)
Variable thrown_value : string.
Variable thrown_value_unserialisable : option string.

(** *** [logger.ts]: the calls the route makes beyond those of [auth.ts] *)

(** [logger.warn(message, data)], no context: [meta] is [undefined]. *)
Definition logger_warn_plain (msg : string) (d : LogData) : M unit :=
  log host lvl_warn msg d None.

(** [Logger.log] on data that [JSON.stringify] may refuse.  [formatLog(entry)]
    is evaluated as the argument of the first [writeToFile], after
    [console.log] and outside the [try] of [writeToFile]: what
    [JSON.stringify] throws leaves [log]. *)
Definition log_checked (refuses : option Thrown) (lvl : LogLevel) (msg : string)
    (d : LogData) (m : option RequestContext) : M unit :=
  match refuses with
  | None => log host lvl msg d m
  | Some e => (console_print (printed host lvl msg d) ;; throw e)%js
  end.

(** [logger.error(message, data, c)] *)
Definition logger_error (refuses : option Thrown) (msg : string) (d : LogData) : M unit :=
  (let* m := getRequestContext host req in
   log_checked refuses lvl_error msg d (Some m))%js.

(** *** [profile.service.ts] *)

Definition findUnique (id : string) : MA (option Profile) :=
  fun s => (prisma_user_findUnique id, with_db_queries (db_queries s ++ [id]) s).

Definition getProfile (userId : string) : MA ProfileResult :=
  let* user := findUnique userId in
  match user with
  | None =>
      liftA (logger_warn_plain "User injection failed - User not found"
               [("userId", userId)]) ;;
      retA (NotFound "User not found")
  | Some u => retA (Found u)
  end.

(** *** [user-injection.ts] *)

Definition c_jsonA (b : list (string * string)) (st : Z) : MA (option Response) :=
  retA (Some {| status := st; body := b |}).

(** [error instanceof Error ? error.message : error] *)
Definition message_or_value (e : Thrown) : string :=
  match e with
  | ErrorObject m => m
  | TypeError m => m
  | OtherValue => thrown_value
  end.

(** What [JSON.stringify] throws on [{ error: ... }] for that value: a
    message is a string and is serialised; another value may be refused. *)
Definition refused (e : Thrown) : option Thrown :=
  match e with
  | ErrorObject _ => None
  | TypeError _ => None
  | OtherValue => TypeError <$> thrown_value_unserialisable
  end.

Definition injectUser (next : MA unit) : MA (option Response) :=
  try_catchA
    (let* userId := getsA (fun s => ctx_userId (world s)) in
     match userId with
     | Some (String c0 s0) =>
         let* user := getProfile (String c0 s0) in
         match user with
         | NotFound _ =>
             liftA (logger_warn_plain "User injection failed - User not found"
                      [("userId", String c0 s0)]) ;;
             c_jsonA [("error", "User not found")] 404
         | Found u =>
             modifyA (with_user (Some u)) ;;
             liftA (logger_debug host req "User injected into context"
                      [("userId", profile_id u)]) ;;
             next ;;
             retA None
         end
     | _ =>
         liftA (logger_warn host req "User injection failed - No user ID in context" []) ;;
         c_jsonA [("error", "Unauthorized")] 401
     end)
    (fun error =>
       liftA (logger_error (refused error) "User injection middleware error"
                [("error", message_or_value error)]) ;;
       c_jsonA [("error", "Internal server error")] 500).

Definition getUser : MA Profile :=
  let* user := getsA ctx_user in
  match user with
  | Some u => retA u
  | None =>
      throwA (ErrorObject
        "User not found in context. Did you forget to use injectUser middleware?")
  end.

(** *** [decorators.ts] *)

Definition withUser (handler : Profile -> MA (option Response)) : MA (option Response) :=
  let* user := getUser in
  handler user.

(** *** [profile.controller.ts]: [GET /profile] *)

(** [c.json(user)]: the dates are serialised by [toISOString]. *)
Definition json_of_profile (u : Profile) : list (string * string) :=
  [("id", profile_id u); ("email", profile_email u);
   ("createdAt", toISOString host (profile_createdAt u));
   ("updatedAt", toISOString host (profile_updatedAt u))].

Definition profile_handler : MA (option Response) :=
  withUser (fun user =>
    liftA (logger_info host req "Profile accessed" [("userId", profile_id user)]) ;;
    c_jsonA (json_of_profile user) 200).

(** *** [index.ts] and hono's dispatch *)

(** [`${err}`] for an instance of [Error]: its name and its message. *)
Definition error_toString (e : Thrown) : option string :=
  match e with
  | ErrorObject m => Some ("Error: " +:+ m)
  | TypeError m => Some ("TypeError: " +:+ m)
  | OtherValue => None
  end.

(** [app.onError]: [console.error(`${err}`)], then a 500. *)
Definition onError (err : string) : MA Response :=
  liftA (console_print (console_error err)) ;;
  retA {| status := 500; body := [("error", "Internal Server Error")] |}.

(** What hono makes of a handler when the middleware before it calls
    [next()]: a returned response is set on the context unless one is set
    already; a thrown [Error] goes to [app.onError], whose response
    replaces the one set; anything else thrown is thrown on.  This is the
    first [next()] of a middleware, the only one made on the runs studied
    below; a second call from the same middleware is refused by hono
    ("next() called multiple times"), as [Fixture.handler_rejects] plays it
    for [authMiddleware]. *)
Definition dispatch (handler : MA (option Response)) : MA unit :=
  fun s =>
    match handler s with
    | (Returns (Some res), s') =>
        (Returns tt, match c_res s' with None => with_res (Some res) s' | Some _ => s' end)
    | (Returns None, s') => (Returns tt, s')
    | (Throws e, s') =>
        match error_toString e with
        | Some err =>
            match onError err s' with
            | (Returns res, s'') => (Returns tt, with_res (Some res) s'')
            | (Throws e', s'') => (Throws e', s'')
            end
        | None => (Throws e, s')
        end
    end.

(** *** [auth.ts] once more, with the rest of the chain behind [next] *)

Definition when_truthyA (v : option string) (k : string -> MA Flow) : MA Flow :=
  match v with
  | Some (String c s) => k (String c s)
  | _ => retA FallThrough
  end.

Definition authMiddleware_with (next : MA unit) : MA (option Response) :=
  let accessToken := getCookie req "accessToken" in
  let refreshToken := getCookie req "refreshToken" in
  if negb (truthy accessToken) && negb (truthy refreshToken) then
    liftA (logger_warn host req "Auth failed - No tokens provided" []) ;;
    c_jsonA Unauthorized 401
  else
    let* tried_access :=
      when_truthyA accessToken (fun accessToken =>
        try_catchA
          (let* decoded := liftA (verify host accessToken (ACCESS_TOKEN_SECRET (env host))) in
           liftA (c_set_userId (jwt_id decoded)) ;;
           next ;;
           retA (Return None))
          (fun error =>
             liftA (logger_debug host req "Access token invalid, attempting refresh"
                      [("error", error_message error)]) ;;
             retA FallThrough)) in
    match tried_access with
    | Return r => retA r
    | FallThrough =>
        let* tried_refresh :=
          when_truthyA refreshToken (fun refreshToken =>
            try_catchA
              (let* decoded :=
                 liftA (verify host refreshToken (REFRESH_TOKEN_SECRET (env host))) in
               let* newAccessToken :=
                 liftA (sign host {| jwt_id := jwt_id decoded |}
                          (ACCESS_TOKEN_SECRET (env host)) {| expiresIn := "1h" |}) in
               liftA (setCookie "accessToken" newAccessToken cookieOptions.access) ;;
               liftA (c_set_userId (jwt_id decoded)) ;;
               liftA (logger_info host req "Token refreshed successfully"
                        [("userId", jwt_id decoded)]) ;;
               next ;;
               retA (Return None))
              (fun error =>
                 liftA (logger_warn host req "Auth failed - Invalid refresh token"
                          [("error", error_message error)]) ;;
                 retA FallThrough)) in
        match tried_refresh with
        | Return r => retA r
        | FallThrough =>
            liftA (logger_warn host req "Auth failed - All tokens invalid" []) ;;
            c_jsonA Unauthorized 401
        end
    end.

(** [profileController.use("/*", authMiddleware); use("/*", injectUser);
    openapi(GET "/", withUser(...))], as the app dispatches it. *)
Definition get_profile : MA unit :=
  dispatch (authMiddleware_with (dispatch (injectUser (dispatch profile_handler)))).

(** *** The chain version of [authMiddleware] is [authMiddleware] *)

Ltac crunch :=
  repeat (simpl;
          match goal with
          | |- ?x = ?x => reflexivity
          | |- context [logger_warn ?h ?r ?m ?d ?w] =>
              destruct (logger_warn h r m d w) as [[[]|?] ?]
          | |- context [logger_info ?h ?r ?m ?d ?w] =>
              destruct (logger_info h r m d w) as [[[]|?] ?]
          | |- context [logger_debug ?h ?r ?m ?d ?w] =>
              destruct (logger_debug h r m d w) as [[[]|?] ?]
          | |- context [jwt_verify ?t ?k ?c] => destruct (jwt_verify t k c) as [?|?]
          | |- context [jwt_sign ?p ?k ?o ?c] => destruct (jwt_sign p k o c) as [?|?]
          | |- context [?d (length ?l)] => destruct (d (length l)) as [[]|?]
          end).

(** With an oracle behind [next], the chain version is the middleware of
    [auth.ts] as embedded above. *)
Lemma authMiddleware_with_oracle (downstream : nat -> Outcome unit) (s : App) :
  authMiddleware_with (liftA (next downstream)) s
    = liftA (authMiddleware host req downstream) s.
Proof.
  unfold authMiddleware_with, authMiddleware.
  destruct (getCookie req "accessToken") as [[|c t]|];
    destruct (getCookie req "refreshToken") as [[|c' t']|]; simpl.
  all: unfold bindA, bind, liftA, when_truthyA, when_truthy, try_catchA, try_catch,
         c_jsonA, c_json, retA, ret, verify, sign, setCookie, c_set_userId, modify, next.
  all: crunch.
  all: reflexivity.
Qed.

(** *** Runs of the chain *)

(** From [s] to [s'] only logging happened. *)
Record logsA (s s' : App) : Prop := LogsA {
  la_world : logs_only host (world s) (world s');
  la_user : ctx_user s' = ctx_user s;
  la_res : c_res s' = c_res s;
  la_db : db_queries s' = db_queries s
}.

Lemma logsA_refl s : logsA s s.
Proof. split; auto using logs_only_refl. Qed.

Lemma logsA_trans s1 s2 s3 : logsA s1 s2 -> logsA s2 s3 -> logsA s1 s3.
Proof. intros [] []. split; try congruence. eauto using logs_only_trans. Qed.

Lemma liftA_logs (m : M unit) s :
  (exists w', m (world s) = (Returns tt, w') /\ logs_only host (world s) w') ->
  exists s', liftA m s = (Returns tt, s') /\ logsA s s'.
Proof.
  intros (w' & E & L). exists (with_world w' s). unfold liftA. rewrite E.
  split; [done |]. by split.
Qed.

Lemma warn_run msg d s :
  exists s', liftA (logger_warn host req msg d) s = (Returns tt, s') /\ logsA s s'.
Proof.
  apply liftA_logs. destruct (logger_warn_run host req msg d (world s)) as (w' & ? & ? & _).
  eauto.
Qed.

Lemma info_run msg d s :
  exists s', liftA (logger_info host req msg d) s = (Returns tt, s') /\ logsA s s'.
Proof.
  apply liftA_logs. destruct (logger_info_run host req msg d (world s)) as (w' & ? & ? & _).
  eauto.
Qed.

Lemma debug_run msg d s :
  exists s', liftA (logger_debug host req msg d) s = (Returns tt, s') /\ logsA s s'.
Proof.
  apply liftA_logs. destruct (logger_debug_run host req msg d (world s)) as (w' & ? & ? & _).
  eauto.
Qed.

Lemma warn_plain_run msg d s :
  exists s', liftA (logger_warn_plain msg d) s = (Returns tt, s') /\ logsA s s'.
Proof.
  apply liftA_logs. destruct (log_run host lvl_warn msg d None (world s)) as (w' & ? & ? & _).
  eauto.
Qed.

Lemma error_run refuses msg d s :
  exists s',
    liftA (logger_error refuses msg d) s
      = (match refuses with None => Returns tt | Some t => Throws t end, s') /\
    logsA s s'.
Proof.
  destruct refuses as [t|].
  - unfold liftA, logger_error, log_checked, bind.
    destruct (getRequestContext_run host req (world s)) as (rc & w1 & E1 & L1).
    rewrite E1. unfold console_print, modify, throw. eexists. split; [reflexivity |].
    split; try done. simpl. eapply logs_only_trans; [exact L1 |].
    split; simpl; eauto using fs_appended_refl.
  - apply liftA_logs.
    destruct (logger_with_context_run host req lvl_error msg d (world s)) as (w' & ? & ? & _).
    eauto.
Qed.

(** The [catch] of [injectUser]: it answers 500, unless logging the thrown
    value throws in its turn. *)
Lemma inject_catch_run e s :
  exists s',
    (liftA (logger_error (refused e) "User injection middleware error"
              [("error", message_or_value e)]) ;;
     c_jsonA [("error", "Internal server error")] 500) s
      = (match refused e with
         | None => Returns (Some {| status := 500; body := [("error", "Internal server error")] |})
         | Some t => Throws t
         end, s') /\
    logsA s s'.
Proof.
  unfold bindA. destruct (error_run (refused e) "User injection middleware error"
                            [("error", message_or_value e)] s) as (s' & E & L).
  rewrite E. exists s'. by destruct (refused e).
Qed.

Definition queried (id : string) (s : App) : App :=
  with_db_queries (db_queries s ++ [id]) s.

(** How the [catch] of [injectUser] ends for what was thrown. *)
Definition caught (e : Thrown) : Outcome (option Response) :=
  match refused e with
  | None => Returns (Some {| status := 500; body := [("error", "Internal server error")] |})
  | Some t => Throws t
  end.

(** The runs [injectUser] can make. *)
Inductive inject_run (next : MA unit) (s : App) : Outcome (option Response) -> App -> Prop :=
| inject_no_userId s' :
    truthy (ctx_userId (world s)) = false ->
    logsA s s' ->
    inject_run next s
      (Returns (Some {| status := 401; body := [("error", "Unauthorized")] |})) s'
| inject_not_found uid s' :
    ctx_userId (world s) = Some uid -> truthy (Some uid) = true ->
    prisma_user_findUnique uid = Returns None ->
    logsA (queried uid s) s' ->
    inject_run next s
      (Returns (Some {| status := 404; body := [("error", "User not found")] |})) s'
| inject_db_error uid e s' :
    ctx_userId (world s) = Some uid -> truthy (Some uid) = true ->
    prisma_user_findUnique uid = Throws e ->
    logsA (queried uid s) s' ->
    inject_run next s (caught e) s'
| inject_passed uid u s1 s2 :
    ctx_userId (world s) = Some uid -> truthy (Some uid) = true ->
    prisma_user_findUnique uid = Returns (Some u) ->
    logsA (with_user (Some u) (queried uid s)) s1 ->
    next s1 = (Returns tt, s2) ->
    inject_run next s (Returns None) s2
| inject_next_threw uid u e s1 s2 s3 :
    ctx_userId (world s) = Some uid -> truthy (Some uid) = true ->
    prisma_user_findUnique uid = Returns (Some u) ->
    logsA (with_user (Some u) (queried uid s)) s1 ->
    next s1 = (Throws e, s2) ->
    logsA s2 s3 ->
    inject_run next s (caught e) s3.

Lemma injectUser_run next s :
  exists o s', injectUser next s = (o, s') /\ inject_run next s o s'.
Proof.
  unfold injectUser, try_catchA, bindA at 1, getsA.
  destruct (ctx_userId (world s)) as [[|c0 u0]|] eqn:U.
  1,3: destruct (warn_run "User injection failed - No user ID in context" [] s)
         as (s' & E & L);
       unfold bindA, c_jsonA, retA; rewrite E;
       eexists _, s'; split; [reflexivity |]; apply inject_no_userId; [by rewrite U | done].
  unfold bindA at 1, getProfile, bindA at 1, findUnique.
  destruct (prisma_user_findUnique (String c0 u0)) as [[u|]|e] eqn:Q.
  - unfold retA at 1, bindA at 1, modifyA.
    destruct (debug_run "User injected into context" [("userId", profile_id u)]
                (with_user (Some u) (queried (String c0 u0) s))) as (s1 & E1 & L1).
    unfold queried in E1. unfold bindA at 1. rewrite E1.
    unfold bindA, retA.
    destruct (next s1) as [[[]|e] s2] eqn:N.
    + eexists _, s2. split; [reflexivity |]. by eapply inject_passed.
    + destruct (inject_catch_run e s2) as (s3 & E3 & L3).
      unfold bindA in E3. rewrite E3.
      eexists _, s3. split; [reflexivity |]. by eapply inject_next_threw.
  - unfold bindA at 1.
    destruct (warn_plain_run "User injection failed - User not found"
                [("userId", String c0 u0)] (queried (String c0 u0) s)) as (s1 & E1 & L1).
    unfold queried in E1. rewrite E1. unfold retA at 1.
    destruct (warn_plain_run "User injection failed - User not found"
                [("userId", String c0 u0)] s1) as (s2 & E2 & L2).
    unfold bindA, c_jsonA, retA. rewrite E2.
    eexists _, s2. split; [reflexivity |].
    eapply inject_not_found; eauto using logsA_trans.
  - destruct (inject_catch_run e (queried (String c0 u0) s)) as (s3 & E3 & L3).
    unfold bindA in E3. unfold queried in E3. unfold bindA. rewrite E3.
    eexists _, s3. split; [reflexivity |]. by eapply inject_db_error.
Qed.

(** What [GET /profile] answers for a subject, by what the database says.
    A lookup that throws is answered 500: by the [catch] of [injectUser],
    or, when logging what was thrown throws in its turn, by [app.onError]. *)
Definition profile_response (uid : string) : Response :=
  match prisma_user_findUnique uid with
  | Returns (Some u) => {| status := 200; body := json_of_profile u |}
  | Returns None => {| status := 404; body := [("error", "User not found")] |}
  | Throws e =>
      match refused e with
      | None => {| status := 500; body := [("error", "Internal server error")] |}
      | Some _ => {| status := 500; body := [("error", "Internal Server Error")] |}
      end
  end.

Definition profile_loaded (uid : string) (before : option Profile) : option Profile :=
  match prisma_user_findUnique uid with
  | Returns (Some u) => Some u
  | _ => before
  end.

Lemma profile_handler_run s u :
  ctx_user s = Some u ->
  exists s',
    profile_handler s = (Returns (Some {| status := 200; body := json_of_profile u |}), s') /\
    logsA s s'.
Proof.
  intros U. unfold profile_handler, withUser, getUser, bindA at 1, bindA at 1, getsA.
  rewrite U. unfold retA at 1.
  destruct (info_run "Profile accessed" [("userId", profile_id u)] s) as (s' & E & L).
  unfold bindA, c_jsonA, retA. rewrite E. by exists s'.
Qed.

Lemma dispatch_response (h : MA (option Response)) s r s' :
  h s = (Returns (Some r), s') -> c_res s' = None ->
  dispatch h s = (Returns tt, with_res (Some r) s').
Proof. intros E C. unfold dispatch. by rewrite E, C. Qed.

Lemma dispatch_passes (h : MA (option Response)) s s' :
  h s = (Returns None, s') -> dispatch h s = (Returns tt, s').
Proof. intros E. unfold dispatch. by rewrite E. Qed.

Lemma dispatch_onError (h : MA (option Response)) s e err s' :
  h s = (Throws e, s') -> error_toString e = Some err ->
  exists s'',
    dispatch h s = (Returns tt, s'') /\
    c_res s'' = Some {| status := 500; body := [("error", "Internal Server Error")] |} /\
    ctx_user s'' = ctx_user s' /\ db_queries s'' = db_queries s' /\
    logs_only host (world s') (world s'').
Proof.
  intros E T. unfold dispatch. rewrite E, T.
  unfold onError, bindA, liftA, console_print, modify, retA. simpl.
  eexists. split; [reflexivity |]. simpl.
  split; [done |]. split; [done |]. split; [done |].
  split; simpl; auto using fs_appended_refl. by eexists.
Qed.

Lemma refused_TypeError e t :
  refused e = Some t ->
  exists msg, thrown_value_unserialisable = Some msg /\ t = TypeError msg.
Proof.
  destruct e; simpl; [done | done |].
  destruct thrown_value_unserialisable as [msg|]; simpl; [| done].
  intros [= <-]. by exists msg.
Qed.

(** Behind a subject that is set, [injectUser] and the profile handler
    always come back to the caller, with the response decided. *)
Lemma inject_chain s uid :
  ctx_userId (world s) = Some uid -> truthy (Some uid) = true -> c_res s = None ->
  exists s',
    dispatch (injectUser (dispatch profile_handler)) s = (Returns tt, s') /\
    c_res s' = Some (profile_response uid) /\
    db_queries s' = db_queries s ++ [uid] /\
    ctx_user s' = profile_loaded uid (ctx_user s) /\
    logs_only host (world s) (world s').
Proof.
  intros U T C.
  destruct (injectUser_run (dispatch profile_handler) s) as (r & s' & E & R).
  unfold profile_response, profile_loaded.
  inversion R; subst.
  - congruence.
  - assert (uid0 = uid) by congruence; subst.
    match goal with Q : prisma_user_findUnique _ = _ |- _ => rewrite Q end.
    match goal with L : logsA _ s' |- _ => destruct L as [Lw Lu Lr Ld] end.
    simpl in *. exists (with_res (Some {| status := 404; body := [("error", "User not found")] |}) s').
    split; [apply dispatch_response; [done | congruence] |].
    simpl. auto.
  - assert (uid0 = uid) by congruence; subst.
    match goal with Q : prisma_user_findUnique _ = _ |- _ => rewrite Q end.
    match goal with L : logsA _ s' |- _ => destruct L as [Lw Lu Lr Ld] end.
    simpl in *. unfold caught in E.
    destruct (refused e) as [t|] eqn:RF.
    + destruct (refused_TypeError _ _ RF) as (msg & _ & ->).
      destruct (dispatch_onError _ _ _ _ _ E eq_refl) as (s'' & Ed & Rd & Ud & Dd & Ld').
      exists s''. split; [exact Ed |]. split; [exact Rd |].
      split; [congruence |]. split; [congruence |]. by eapply logs_only_trans.
    + exists (with_res (Some {| status := 500; body := [("error", "Internal server error")] |}) s').
      split; [apply dispatch_response; [done | congruence] |].
      simpl. auto.
  - assert (uid0 = uid) by congruence; subst.
    match goal with Q : prisma_user_findUnique _ = _ |- _ => rewrite Q end.
    match goal with L : logsA _ s1 |- _ => destruct L as [Lw Lu Lr Ld] end.
    simpl in *.
    destruct (profile_handler_run s1 u Lu) as (s2 & Eh & [Lw2 Lu2 Lr2 Ld2]).
    match goal with N : dispatch profile_handler s1 = _ |- _ =>
      rewrite (dispatch_response _ _ _ _ Eh) in N by congruence; inversion N; subst end.
    eexists. split; [by apply dispatch_passes |].
    simpl. split; [done |]. split; [congruence |]. split; [congruence |].
    by eapply logs_only_trans.
  - assert (uid0 = uid) by congruence; subst.
    match goal with L : logsA _ s1 |- _ => destruct L as [Lw Lu Lr Ld] end.
    simpl in *.
    destruct (profile_handler_run s1 u Lu) as (s2' & Eh & [Lw2 Lu2 Lr2 Ld2]).
    match goal with N : dispatch profile_handler s1 = _ |- _ =>
      rewrite (dispatch_response _ _ _ _ Eh) in N by congruence; discriminate N end.
Qed.

Lemma auth_with_rejects (nx : MA unit) s :
  fails_verification host (getCookie req "accessToken") (ACCESS_TOKEN_SECRET (env host)) = true ->
  fails_verification host (getCookie req "refreshToken") (REFRESH_TOKEN_SECRET (env host)) = true ->
  exists s',
    authMiddleware_with nx s
      = (Returns (Some {| status := 401; body := Unauthorized |}), s') /\
    quiet host (world s) (world s') /\
    ctx_user s' = ctx_user s /\ c_res s' = c_res s /\ db_queries s' = db_queries s.
Proof.
  intros Fa Fr.
  assert (E : authMiddleware_with nx s
              = authMiddleware_with (liftA (next (fun _ => Returns tt))) s).
  { unfold authMiddleware_with.
    destruct (getCookie req "accessToken") as [[|c t]|];
      destruct (getCookie req "refreshToken") as [[|c' t']|]; simpl in *.
    all: unfold bindA, when_truthyA, try_catchA, liftA, verify.
    all: repeat match goal with
                | H : context [jwt_verify ?t ?k ?c] |- _ =>
                    destruct (jwt_verify t k c); try discriminate H
                end.
    all: reflexivity. }
  rewrite E, authMiddleware_with_oracle. unfold liftA.
  destruct (no_valid_token_run host req (fun _ => Returns tt) (world s) Fa Fr)
    as (w' & Ew & Q).
  rewrite Ew. exists (with_world w' s). split; [done |]. split; [exact Q |]. by simpl.
Qed.

Definition admitted (uid : string) (tok secret : string) (s : App) : App :=
  with_world (with_userId (Some uid) (after_verify tok secret (world s))) s.

Lemma auth_with_admits (nx : MA unit) s tok p s2 :
  getCookie req "accessToken" = Some tok ->
  jwt_verify tok (ACCESS_TOKEN_SECRET (env host)) (clockTimestamp host) = Returns p ->
  nx (admitted (jwt_id p) tok (ACCESS_TOKEN_SECRET (env host)) s) = (Returns tt, s2) ->
  authMiddleware_with nx s = (Returns None, s2).
Proof.
  intros C V N. unfold authMiddleware_with. rewrite C.
  destruct tok as [|c t]; [by rewrite jwt_must_be_provided in V |]. simpl.
  unfold bindA at 1, when_truthyA, try_catchA, bindA at 1, liftA at 1, verify.
  rewrite V. unfold bindA at 1, liftA, c_set_userId, modify.
  unfold bindA at 1. simpl.
  match goal with |- context [nx ?st] =>
    replace st with (admitted (jwt_id p) (String c t) (ACCESS_TOKEN_SECRET (env host)) s)
      by reflexivity end.
  by rewrite N.
Qed.

Lemma auth_with_renews (nx : MA unit) s rt q t :
  fails_verification host (getCookie req "accessToken") (ACCESS_TOKEN_SECRET (env host)) = true ->
  getCookie req "refreshToken" = Some rt ->
  jwt_verify rt (REFRESH_TOKEN_SECRET (env host)) (clockTimestamp host) = Returns q ->
  jwt_sign {| jwt_id := jwt_id q |} (ACCESS_TOKEN_SECRET (env host)) {| expiresIn := "1h" |}
    (clockTimestamp host) = Returns t ->
  exists s1,
    ctx_userId (world s1) = Some (jwt_id q) /\
    res_setCookie (world s1) = res_setCookie (world s) ++ [renewed_cookie t] /\
    ctx_user s1 = ctx_user s /\ c_res s1 = c_res s /\ db_queries s1 = db_queries s /\
    forall s2, nx s1 = (Returns tt, s2) -> authMiddleware_with nx s = (Returns None, s2).
Proof.
  intros Fa C V S. unfold authMiddleware_with. rewrite C.
  destruct rt as [|c rt]; [by rewrite jwt_must_be_provided in V |].
  assert (A : exists sa,
             when_truthyA (getCookie req "accessToken")
               (fun accessToken =>
                  try_catchA
                    (let* decoded :=
                       liftA (verify host accessToken (ACCESS_TOKEN_SECRET (env host))) in
                     liftA (c_set_userId (jwt_id decoded)) ;; nx ;; retA (Return None))
                    (fun error =>
                       liftA (logger_debug host req "Access token invalid, attempting refresh"
                                [("error", error_message error)]) ;;
                       retA FallThrough)) s = (Returns FallThrough, sa) /\
             ctx_user sa = ctx_user s /\ c_res sa = c_res s /\ db_queries sa = db_queries s /\
             res_setCookie (world sa) = res_setCookie (world s)).
  { destruct (getCookie req "accessToken") as [[|ca ta]|]; simpl in Fa.
    1,3: by exists s.
    unfold when_truthyA, try_catchA, bindA at 1, liftA at 1, verify.
    destruct (jwt_verify (String ca ta) (ACCESS_TOKEN_SECRET (env host)) (clockTimestamp host))
      as [?|e]; [discriminate |].
    unfold bindA.
    match goal with |- context [liftA ?m ?st] =>
      destruct (debug_run "Access token invalid, attempting refresh"
                  [("error", error_message e)] st) as (sa & Ea & [[] ? ? ?]) end.
    unfold retA. rewrite Ea. exists sa. simpl in *. by repeat split. }
  destruct A as (sa & Ea & Ua & Ra & Da & Ca).
  replace (negb (truthy (getCookie req "accessToken")) && negb (truthy (Some (String c rt))))
    with false by (simpl; by rewrite andb_false_r).
  set (X := with_world
              (with_userId (Some (jwt_id q))
                 (after_mint host (jwt_id q) t
                    (after_verify (String c rt) (REFRESH_TOKEN_SECRET (env host)) (world sa))))
              sa).
  destruct (info_run "Token refreshed successfully" [("userId", jwt_id q)] X)
    as (s1 & E1 & [[] ? ? ?]).
  exists s1. simpl in *. repeat split; try congruence.
  intros s2 N.
  unfold bindA at 1. rewrite Ea.
  unfold bindA at 1, when_truthyA, try_catchA, bindA at 1, liftA at 1, verify. rewrite V.
  unfold bindA at 1, liftA at 1, sign. rewrite S.
  unfold bindA at 1, liftA at 1, setCookie, modify.
  unfold bindA at 1, liftA at 1, c_set_userId, modify.
  unfold bindA at 1. simpl.
  match goal with |- context [liftA (logger_info _ _ _ _) ?st] =>
    replace st with X by reflexivity end.
  rewrite E1. unfold bindA, retA. by rewrite N.
Qed.

(** *** Properties of [injectUser] and of [GET /profile] *)


(** X22.  The exception of X11 is taken.  A subject with a row, and a rest
    of the chain that throws a value that is not an [Error] and that
    [JSON.stringify] cannot serialise: [injectUser] rejects with the
    [TypeError], and it is [app.onError], not the [catch] of [injectUser],
    that answers the client (500 "Internal Server Error"). *)
Theorem injectUser_rethrows_unserialisable (nx : MA unit) s uid u msg :
  ctx_userId (world s) = Some uid ->
  truthy (Some uid) = true ->
  prisma_user_findUnique uid = Returns (Some u) ->
  (forall s1, fst (nx s1) = Throws OtherValue) ->
  thrown_value_unserialisable = Some msg ->
  (exists s', injectUser nx s = (Throws (TypeError msg), s')) /\
  (exists s'',
     dispatch (injectUser nx) s = (Returns tt, s'') /\
     c_res s'' = Some {| status := 500; body := [("error", "Internal Server Error")] |}).
Proof.
  intros U T Q N J.
  assert (E : exists s', injectUser nx s = (Throws (TypeError msg), s')).
  { destruct (injectUser_run nx s) as (o & s' & E & R).
    exists s'. rewrite E. f_equal.
    inversion R; subst; try congruence.
    - match goal with X : nx ?a = (Returns tt, _) |- _ =>
        specialize (N a); rewrite X in N; discriminate N end.
    - match goal with X : nx ?a = (Throws ?e, _) |- _ =>
        specialize (N a); rewrite X in N; injection N as -> end.
      unfold caught, refused. by rewrite J. }
  split; [exact E |].
  destruct E as (s' & E).
  destruct (dispatch_onError _ _ _ _ _ E eq_refl) as (s'' & Ed & Rd & _).
  by exists s''.
Qed.

(** X12.  Without a subject on the context ([userId] unset or empty)
    [injectUser] answers 401 and does nothing else: the database is not
    queried, [user] is not set, the rest of the chain does not run; only
    the logger has written. *)
Theorem injectUser_without_subject (nx : MA unit) s :
  truthy (ctx_userId (world s)) = false ->
  exists s',
    injectUser nx s
      = (Returns (Some {| status := 401; body := [("error", "Unauthorized")] |}), s') /\
    db_queries s' = db_queries s /\
    ctx_user s' = ctx_user s /\
    c_res s' = c_res s /\
    logs_only host (world s) (world s').
Proof.
  intros T.
  destruct (injectUser_run nx s) as (r & s' & E & R).
  exists s'. inversion R; subst; try congruence.
  match goal with L : logsA _ _ |- _ => destruct L end. auto.
Qed.

(** X13.  [GET /profile] with an access token that verifies.  The answer
    is decided by the database alone: 200 with the row of the token's
    subject, 404 when there is none, 500 when the lookup fails.  The
    database is asked once, for that subject; and since nothing behind
    [next()] rejects on this route, the refresh token is never looked at
    and no cookie is written. *)
Theorem profile_by_access_token s tok p :
  c_res s = None ->
  getCookie req "accessToken" = Some tok ->
  jwt_verify tok (ACCESS_TOKEN_SECRET (env host)) (clockTimestamp host) = Returns p ->
  truthy (Some (jwt_id p)) = true ->
  exists s',
    get_profile s = (Returns tt, s') /\
    c_res s' = Some (profile_response (jwt_id p)) /\
    ctx_user s' = profile_loaded (jwt_id p) (ctx_user s) /\
    db_queries s' = db_queries s ++ [jwt_id p] /\
    jwt_calls (world s') =
      jwt_calls (world s) ++ [VerifyCall tok (ACCESS_TOKEN_SECRET (env host))] /\
    res_setCookie (world s') = res_setCookie (world s).
Proof.
  intros C Ca V T.
  destruct (inject_chain (admitted (jwt_id p) tok (ACCESS_TOKEN_SECRET (env host)) s)
              (jwt_id p)) as (s' & E & R & D & U & [Lu Lc Lj Ln Lf Lo]); try done.
  exists s'. split.
  { unfold get_profile. apply dispatch_passes. by eapply auth_with_admits. }
  simpl in *. by repeat split.
Qed.

(** X14.  [GET /profile] when no presented token verifies: 401
    "Unauthorized", and the request never reaches [injectUser]: no database
    query, no [user], no cookie. *)
Theorem profile_refused_without_valid_token s :
  c_res s = None ->
  fails_verification host (getCookie req "accessToken") (ACCESS_TOKEN_SECRET (env host)) = true ->
  fails_verification host (getCookie req "refreshToken") (REFRESH_TOKEN_SECRET (env host)) = true ->
  exists s',
    get_profile s = (Returns tt, s') /\
    c_res s' = Some {| status := 401; body := [("error", "Unauthorized")] |} /\
    db_queries s' = db_queries s /\
    ctx_user s' = ctx_user s /\
    res_setCookie (world s') = res_setCookie (world s).
Proof.
  intros C Fa Fr.
  destruct (auth_with_rejects (dispatch (injectUser (dispatch profile_handler))) s Fa Fr)
    as (s' & E & [Lu Lc Lj Ln Lf Lo] & U & R & D).
  eexists. split.
  { unfold get_profile. apply dispatch_response; [exact E | congruence]. }
  simpl in *. by repeat split.
Qed.

(** X15.  [GET /profile] on the refresh path: the access token is unusable,
    the refresh token verifies and [jwt.sign] returns a token.  The
    accessToken cookie holding that token is written and, in the same
    request, the profile of the refresh token's subject is looked up and
    answered as on the access path. *)
Theorem profile_by_refresh_token s rt q t :
  c_res s = None ->
  fails_verification host (getCookie req "accessToken") (ACCESS_TOKEN_SECRET (env host)) = true ->
  getCookie req "refreshToken" = Some rt ->
  jwt_verify rt (REFRESH_TOKEN_SECRET (env host)) (clockTimestamp host) = Returns q ->
  jwt_sign {| jwt_id := jwt_id q |} (ACCESS_TOKEN_SECRET (env host)) {| expiresIn := "1h" |}
    (clockTimestamp host) = Returns t ->
  truthy (Some (jwt_id q)) = true ->
  exists s',
    get_profile s = (Returns tt, s') /\
    c_res s' = Some (profile_response (jwt_id q)) /\
    ctx_user s' = profile_loaded (jwt_id q) (ctx_user s) /\
    db_queries s' = db_queries s ++ [jwt_id q] /\
    res_setCookie (world s') = res_setCookie (world s) ++ [renewed_cookie t].
Proof.
  intros C Fa Cr V S T.
  destruct (auth_with_renews (dispatch (injectUser (dispatch profile_handler))) s rt q t
              Fa Cr V S)
    as (s1 & U1 & C1 & Us & Rs & Ds & K).
  destruct (inject_chain s1 (jwt_id q)) as (s' & E & R & D & U & [Lu Lc Lj Ln Lf Lo]);
    try done; try congruence.
  exists s'. split.
  { unfold get_profile. apply dispatch_passes. by apply K. }
  repeat split; congruence.
Qed.

(** X16.  A handler wrapped in [withUser] on a route without [injectUser]:
    [getUser] throws, the handler body does not run, and the app's
    [onError] answers 500 "Internal Server Error". *)
Theorem withUser_without_injection (handler : Profile -> MA (option Response)) s :
  ctx_user s = None ->
  exists s',
    dispatch (withUser handler) s = (Returns tt, s') /\
    c_res s' = Some {| status := 500; body := [("error", "Internal Server Error")] |} /\
    ctx_user s' = None /\
    db_queries s' = db_queries s /\
    fs (world s') = fs (world s) /\
    console (world s') =
      console (world s) ++
        [console_error
           "Error: User not found in context. Did you forget to use injectUser middleware?"].
Proof.
  intros U. unfold dispatch, withUser, getUser, bindA, getsA. rewrite U.
  unfold throwA, onError, bindA, liftA, console_print, modify, retA. simpl.
  eexists. split; [reflexivity |]. by repeat split.
Qed.
End ProtectedRoutes.

(** X20.  A subject without a row is reported twice.  On the 404 path
    both [ProfileService.getProfile] and [injectUser] warn "User injection
    failed - User not found", neither with the request's metadata: the
    day's warn file and info file each gain the same line twice. *)
Theorem missing_user_is_logged_twice
    (host : Host) (req : HonoRequest) (prisma : string -> Outcome (option Profile))
    (thrown_value : string) (unserialisable : option string)
    (nx : MA unit) (s : App) (uid : string) :
  ctx_userId (world s) = Some uid ->
  truthy (Some uid) = true ->
  prisma uid = Returns None ->
  appendFileSync_ok host (log_filepath host lvl_warn) = true ->
  appendFileSync_ok host (log_filepath host lvl_info) = true ->
  let line :=
    log_line host lvl_warn "User injection failed - User not found" [("userId", uid)] None in
  exists s',
    injectUser host req prisma thrown_value unserialisable nx s
      = (Returns (Some {| status := 404; body := [("error", "User not found")] |}), s') /\
    file (world s') (log_filepath host lvl_warn)
      = file (world s) (log_filepath host lvl_warn) ++ [line; line] /\
    file (world s') (log_filepath host lvl_info)
      = file (world s) (log_filepath host lvl_info) ++ [line; line] /\
    ctx_user s' = ctx_user s /\
    db_queries s' = db_queries s ++ [uid].
Proof.
  intros U T Q Ok1 Ok2 line.
  destruct uid as [|c0 u0]; [done |].
  destruct (log_two_files host lvl_warn "User injection failed - User not found"
              [("userId", String c0 u0)] None (world s)) as (w1 & E1 & F1 & G1 & _);
    [done | done | done |].
  destruct (log_two_files host lvl_warn "User injection failed - User not found"
              [("userId", String c0 u0)] None w1) as (w2 & E2 & F2 & G2 & _);
    [done | done | done |].
  exists (with_world w2 (queried (String c0 u0) s)).
  split.
  - unfold injectUser, try_catchA, bindA at 1, getsA. rewrite U.
    unfold bindA at 1, getProfile, bindA at 1, findUnique. rewrite Q.
    unfold bindA at 1, liftA at 1, logger_warn_plain. simpl. rewrite E1.
    unfold retA at 1, bindA, liftA, logger_warn_plain, c_jsonA, retA. simpl.
    by rewrite E2.
  - simpl. rewrite F2, F1, G2, G1. by rewrite <- !app_assoc.
Qed.

(** ** [auth.service.ts]: [AuthService] *)

(** A row of the user table, as [login] and [register] read it. *)
Record User : Type := {
  user_id : string;
  user_email : string;
  user_password : option string;        (* the stored hash, or [null] *)
  user_name : string;
  user_surname : string;
  user_createdAt : Z;
  user_updatedAt : Z
}.

(** What the service functions reject with. *)
Inductive ServiceError : Type :=
| ErrorWithCause (message cause : string)      (* [new Error(message, { cause })] *)
| Rethrown (e : Thrown)            (* an exception of bcrypt, prisma or jsonwebtoken *)
| RethrownKnownRequestError (code : string).   (* any other [PrismaClientKnownRequestError] *)

Inductive ServiceOutcome (A : Type) : Type :=
| Resolved (a : A)
| Rejected (e : ServiceError).
Arguments Resolved {A} a.
Arguments Rejected {A} e.

(** What [prisma.user.create] does: the row, a known request error with its
    code, or another exception. *)
Inductive CreateOutcome : Type :=
| Created (user : User)
| KnownRequestError (code : string)
| CreateThrew (e : Thrown).

Record RegisterInput : Type := {
  reg_email : string;
  reg_password : string;
  reg_name : string;
  reg_surname : string
}.

(** [{ user: { id, email, createdAt }, accessToken, refreshToken }] *)
Record Registered : Type := {
  registered_id : string;
  registered_email : string;
  registered_createdAt : Z;
  registered_accessToken : string;
  registered_refreshToken : string
}.

Section AuthService.
Context `{lib : Jsonwebtoken}.
Variable host : Host.
(** [prisma.user.findUnique({ where: { email } })] *)
Variable prisma_user_findUnique_email : string -> Outcome (option User).
(** [prisma.user.create({ data })] *)
Variable prisma_user_create : RegisterInput -> CreateOutcome.
(** [bcrypt.compare(password, hash)] and [bcrypt.hash(password, rounds)] *)
Variable bcrypt_compare : string -> string -> Outcome bool.
Variable bcrypt_hash : string -> Z -> Outcome string.

Definition sign_access (id : string) : Outcome string :=
  jwt_sign {| jwt_id := id |} (ACCESS_TOKEN_SECRET (env host)) {| expiresIn := "1h" |}
    (clockTimestamp host).

Definition sign_refresh (id : string) : Outcome string :=
  jwt_sign {| jwt_id := id |} (REFRESH_TOKEN_SECRET (env host)) {| expiresIn := "7d" |}
    (clockTimestamp host).

Definition login (email password : string) : ServiceOutcome (string * string) :=
  match prisma_user_findUnique_email email with
  | Throws e => Rejected (Rethrown e)
  | Returns None => Rejected (ErrorWithCause "User not registered" "User not registered")
  | Returns (Some user) =>
      match user_password user with
      | Some (String c h) =>
          match bcrypt_compare password (String c h) with
          | Throws e => Rejected (Rethrown e)
          | Returns false => Rejected (ErrorWithCause "Invalid password" "Invalid password")
          | Returns true =>
              match sign_access (user_id user) with
              | Throws e => Rejected (Rethrown e)
              | Returns accessToken =>
                  match sign_refresh (user_id user) with
                  | Throws e => Rejected (Rethrown e)
                  | Returns refreshToken => Resolved (accessToken, refreshToken)
                  end
              end
          end
      | _ => Rejected (ErrorWithCause "Invalid password" "Invalid password")
      end
  end.

(** In [register] everything runs inside one [try]; its [catch] turns the
    unique-constraint error of prisma into "User already exists" and
    throws anything else on, also what [jwt.sign] throws. *)
Definition register (input : RegisterInput) : ServiceOutcome Registered :=
  match bcrypt_hash (reg_password input) 12 with
  | Throws e => Rejected (Rethrown e)
  | Returns hashedPassword =>
      match prisma_user_create
              {| reg_email := reg_email input; reg_password := hashedPassword;
                 reg_name := reg_name input; reg_surname := reg_surname input |} with
      | Created user =>
          match sign_access (user_id user) with
          | Throws e => Rejected (Rethrown e)
          | Returns accessToken =>
              match sign_refresh (user_id user) with
              | Throws e => Rejected (Rethrown e)
              | Returns refreshToken =>
                  Resolved
                    {| registered_id := user_id user;
                       registered_email := user_email user;
                       registered_createdAt := user_createdAt user;
                       registered_accessToken := accessToken;
                       registered_refreshToken := refreshToken |}
              end
          end
      | KnownRequestError code =>
          if String.eqb code "P2002"
          then Rejected (ErrorWithCause "User already exists" "User already exists")
          else Rejected (RethrownKnownRequestError code)
      | CreateThrew e => Rejected (Rethrown e)
      end
  end.

(** What a resolved [register] has done. *)
Lemma register_resolved (input : RegisterInput) (out : Registered) :
  register input = Resolved out ->
  sign_access (registered_id out) = Returns (registered_accessToken out) /\
  sign_refresh (registered_id out) = Returns (registered_refreshToken out).
Proof.
  unfold register.
  destruct (bcrypt_hash (reg_password input) 12%Z) as [h|e]; [| discriminate].
  destruct (prisma_user_create _) as [user|code|e]; try discriminate.
  - destruct (sign_access (user_id user)) as [a|e] eqn:A; [| discriminate].
    destruct (sign_refresh (user_id user)) as [r|e] eqn:R; [| discriminate].
    by intros [= <-].
  - by destruct (String.eqb code "P2002").
Qed.

(** What a resolved [login] has done. *)
Lemma login_resolved (email password : string) (tokens : string * string) :
  login email password = Resolved tokens ->
  exists user hash,
    prisma_user_findUnique_email email = Returns (Some user) /\
    user_password user = Some hash /\ hash <> "" /\
    bcrypt_compare password hash = Returns true /\
    sign_access (user_id user) = Returns (fst tokens) /\
    sign_refresh (user_id user) = Returns (snd tokens).
Proof.
  unfold login.
  destruct (prisma_user_findUnique_email email) as [[user|]|e]; try discriminate.
  destruct (user_password user) as [[|c h]|] eqn:P; try discriminate.
  destruct (bcrypt_compare password (String c h)) as [[|]|e] eqn:B; try discriminate.
  destruct (sign_access (user_id user)) as [a|e] eqn:A; [| discriminate].
  destruct (sign_refresh (user_id user)) as [r|e] eqn:R; [| discriminate].
  intros [= <-]. exists user, (String c h). by repeat split.
Qed.

(** X17.  [login] hands out tokens in one case only: the email has a row,
    the row has a non-empty password hash, [bcrypt.compare] accepts the
    password against that hash, and [jwt.sign] returns both tokens.  The
    pair is then the access token (1h, access key) and the refresh token
    (7d, refresh key) signed for that row's id. *)
Theorem login_resolves_iff (email password : string) (tokens : string * string) :
  login email password = Resolved tokens <->
  exists user hash,
    prisma_user_findUnique_email email = Returns (Some user) /\
    user_password user = Some hash /\ hash <> "" /\
    bcrypt_compare password hash = Returns true /\
    sign_access (user_id user) = Returns (fst tokens) /\
    sign_refresh (user_id user) = Returns (snd tokens).
Proof.
  split; [apply login_resolved |].
  unfold login. intros (user & hash & -> & -> & Hh & B & A & R).
  destruct hash as [|c h]; [done |]. rewrite B, A, R. by destruct tokens.
Qed.

End AuthService.

(** X18.  The session [login] issues is the one [authMiddleware] accepts.
    When [login] resolves for a row and the browser sends its access token
    back to the same deployment, then, provided the library accepts at that
    time the token it signed for the row's id, and [next()] resolves, the
    request runs as that id on the access path and nothing is written. *)
Theorem login_session_is_accepted `{lib : Jsonwebtoken}
    (host host' : Host) (find : string -> Outcome (option User))
    (compare : string -> string -> Outcome bool)
    (email password : string) (tokens : string * string) (user : User)
    (req : HonoRequest) (downstream : nat -> Outcome unit) (w : World) :
  login host find compare email password = Resolved tokens ->
  find email = Returns (Some user) ->
  env host' = env host ->
  (forall t,
     sign_access host (user_id user) = Returns t ->
     jwt_verify t (ACCESS_TOKEN_SECRET (env host)) (clockTimestamp host')
       = Returns {| jwt_id := user_id user |}) ->
  getCookie req "accessToken" = Some (fst tokens) ->
  downstream (length (next_calls w)) = Returns tt ->
  exists w',
    authMiddleware host' req downstream w = (Returns None, w') /\
    ctx_userId w' = Some (user_id user) /\
    res_setCookie w' = res_setCookie w /\
    next_calls w' = next_calls w ++ [Some (user_id user)].
Proof.
  intros L F He V C D.
  apply login_resolved in L as (user' & hash & F' & _ & _ & _ & A & _).
  assert (user' = user) by congruence; subst.
  apply V in A. rewrite <- He in A.
  eexists. split; [by apply (access_admits_run host' req downstream w _ _ C A D) |].
  by repeat split.
Qed.

(** X19.  The refresh token [register] issues renews the session.  When
    [register] resolves and, later, a request to the same deployment
    carries that refresh token with an access token that no longer
    verifies, then, provided the library accepts the refresh token it
    signed for the new row's id, [jwt.sign] returns a token again, an
    accessToken cookie holding it is written and the request runs as that
    id. *)
Theorem registered_refresh_token_renews `{lib : Jsonwebtoken}
    (host host' : Host) (create : RegisterInput -> CreateOutcome)
    (hash : string -> Z -> Outcome string)
    (input : RegisterInput) (out : Registered)
    (req : HonoRequest) (downstream : nat -> Outcome unit) (w : World) :
  register host create hash input = Resolved out ->
  env host' = env host ->
  (forall t,
     sign_refresh host (registered_id out) = Returns t ->
     jwt_verify t (REFRESH_TOKEN_SECRET (env host)) (clockTimestamp host')
       = Returns {| jwt_id := registered_id out |}) ->
  fails_verification host' (getCookie req "accessToken")
    (ACCESS_TOKEN_SECRET (env host')) = true ->
  getCookie req "refreshToken" = Some (registered_refreshToken out) ->
  exists r w' t,
    authMiddleware host' req downstream w = (Returns r, w') /\
    jwt_sign {| jwt_id := registered_id out |} (ACCESS_TOKEN_SECRET (env host'))
      {| expiresIn := "1h" |} (clockTimestamp host') = Returns t /\
    ctx_userId w' = Some (registered_id out) /\
    res_setCookie w' = res_setCookie w ++ [renewed_cookie t] /\
    (downstream (length (next_calls w)) = Returns tt -> r = None).
Proof.
  intros R He V Fa C.
  destruct (register_resolved _ _ _ _ _ R) as [Sa Sr].
  apply V in Sr. rewrite <- He in Sr.
  destruct (renewal_run host' req downstream w _ _ Fa C Sr) as (r & w' & E & H).
  unfold mint in H. simpl in H.
  destruct (jwt_sign {| jwt_id := registered_id out |} (ACCESS_TOKEN_SECRET (env host'))
              {| expiresIn := "1h" |} (clockTimestamp host')) as [t|e] eqn:S.
  - destruct H as (U & K & _ & Hr). exists r, w', t.
    repeat split; try done. intros D. by rewrite D in Hr.
  - apply (jwt_sign_checks_first _ _ _ _ (clockTimestamp host)) in S.
    unfold sign_access in Sa. rewrite He in S. congruence.
Qed.

(** ** The further properties on concrete inputs *)

Module Sample.
(** A deployment whose log directory cannot be written. *)
Definition host_readonly : Host :=
  {| env := Fixture.env0; Date_now := 1000500;
     toISOString := fun _ => "2025-01-01T00:16:40.500Z";
     crypto_randomUUID := "id-0"; process_cwd := "/app";
     appendFileSync_ok := fun _ => false |}.

Definition alice : Profile :=
  {| profile_id := "u1"; profile_email := "alice@example.com";
     profile_createdAt := 0; profile_updatedAt := 0 |}.

(** The user table as the profile lookup sees it: "u1" exists, a lookup of
    "u9" fails, nobody else exists. *)
Definition prisma0 (id : string) : Outcome (option Profile) :=
  if String.eqb id "u1" then Returns (Some alice)
  else if String.eqb id "u9" then Throws (ErrorObject "connection lost")
  else Returns None.

Definition app0 : App :=
  {| world := Fixture.fresh; ctx_user := None; c_res := None; db_queries := [] |}.

Definition alice_row : User :=
  {| user_id := "u1"; user_email := "alice@example.com";
     user_password := Some "hash-of-secret1"; user_name := "Alice";
     user_surname := "A"; user_createdAt := 0; user_updatedAt := 0 |}.

Definition find0 (email : string) : Outcome (option User) :=
  if String.eqb email "alice@example.com" then Returns (Some alice_row) else Returns None.

Definition compare0 (password hash : string) : Outcome bool :=
  Returns (String.eqb hash ("hash-of-" +:+ password)).

Definition hash0 (password : string) (rounds : Z) : Outcome string :=
  Returns ("hash-of-" +:+ password).

Definition create0 (input : RegisterInput) : CreateOutcome :=
  if String.eqb (reg_email input) "alice@example.com" then KnownRequestError "P2002"
  else Created
         {| user_id := "u7"; user_email := reg_email input;
            user_password := Some (reg_password input); user_name := reg_name input;
            user_surname := reg_surname input; user_createdAt := 1000500;
            user_updatedAt := 1000500 |}.

Definition bob : RegisterInput :=
  {| reg_email := "bob@example.com"; reg_password := "secret2";
     reg_name := "Bob"; reg_surname := "B" |}.
End Sample.

Section MoreScenarios.
Import Fixture Sample.

Lemma log_file_named_by_day_witness :
  log_filepath host0 lvl_warn = "/app/logs/2025-01-01-warn.log".
Proof.
  apply (log_file_named_by_day host0 lvl_warn "2025-01-01" "00:16:40.500Z"); reflexivity.
Defined.

Lemma log_writes_level_file_and_info_file_witness :
  exists w',
    log host0 lvl_warn "m" [] None fresh = (Returns tt, w') /\
    file w' "/app/logs/2025-01-01-warn.log" = [log_line host0 lvl_warn "m" [] None] /\
    file w' "/app/logs/2025-01-01-info.log" = [log_line host0 lvl_warn "m" [] None] /\
    (forall p, p <> log_filepath host0 lvl_warn -> p <> log_filepath host0 lvl_info ->
               fs w' !! p = fs fresh !! p) /\
    console w' = [printed host0 lvl_warn "m" []].
Proof.
  apply (log_writes_level_file_and_info_file host0 lvl_warn "m" [] None fresh);
    [discriminate | reflexivity | reflexivity].
Defined.

Lemma log_info_is_written_twice_witness :
  exists w',
    log host0 lvl_info "m" [] None fresh = (Returns tt, w') /\
    file w' "/app/logs/2025-01-01-info.log"
      = [log_line host0 lvl_info "m" [] None; log_line host0 lvl_info "m" [] None] /\
    (forall p, p <> log_filepath host0 lvl_info -> fs w' !! p = fs fresh !! p).
Proof.
  apply (log_info_is_written_twice host0 "m" [] None fresh); reflexivity.
Defined.

Lemma log_survives_failed_appends_witness :
  exists w',
    log host_readonly lvl_error "m" [] None fresh = (Returns tt, w') /\
    fs w' = fs fresh /\
    console w' =
      [printed host_readonly lvl_error "m" [];
       console_error "Failed to write to log file:";
       console_error "Failed to write to log file:"].
Proof.
  apply (log_survives_failed_appends host_readonly lvl_error "m" [] None fresh); reflexivity.
Defined.

Lemma handler_failure_is_answered_401_witness :
  exists w',
    run [("accessToken", access_u1); ("refreshToken", refresh_u2)] handler_rejects
      = (Returns (Some {| status := 401; body := [("error", "Unauthorized")] |}), w').
Proof.
  apply (handler_failure_is_answered_401 (lib := RefJwt.lib) host0
           (request [("accessToken", access_u1); ("refreshToken", refresh_u2)])
           handler_rejects fresh OtherValue (ErrorObject "next() called multiple times"));
    reflexivity.
Defined.

Lemma rejection_after_renewal_keeps_cookie_witness :
  exists w',
    run [("refreshToken", refresh_u1)] handler_rejects
      = (Returns (Some {| status := 401; body := [("error", "Unauthorized")] |}), w') /\
    res_setCookie w' =
      [{| cookie_name := "accessToken"; cookie_value := "u1.4600.ak";
          cookie_opts := cookieOptions.access |}] /\
    ctx_userId w' = Some "u1".
Proof.
  apply (rejection_after_renewal_keeps_cookie (lib := RefJwt.lib) host0
           (request [("refreshToken", refresh_u1)]) handler_rejects fresh
           refresh_u1 {| jwt_id := "u1" |} "u1.4600.ak" OtherValue); reflexivity.
Defined.

Lemma no_access_key_no_renewal_witness :
  exists w',
    authMiddleware (lib := RefJwt.lib) host_no_access_key
      (request [("refreshToken", refresh_u1)]) handler_ok fresh
      = (Returns (Some {| status := 401; body := [("error", "Unauthorized")] |}), w') /\
    res_setCookie w' = [] /\ ctx_userId w' = None /\ next_calls w' = [].
Proof.
  apply (no_access_key_no_renewal (lib := RefJwt.lib) host_no_access_key
           (request [("refreshToken", refresh_u1)]) handler_ok fresh); reflexivity.
Defined.

Lemma access_path_ignores_the_rest_of_the_request_witness :
  run [("accessToken", access_u1)] handler_ok
    = run [("accessToken", access_u1); ("refreshToken", refresh_u2)] handler_ok /\
  fst (run [("accessToken", access_u1)] handler_ok) = Returns None /\
  fs (snd (run [("accessToken", access_u1)] handler_ok)) = fs fresh.
Proof.
  apply (access_path_ignores_the_rest_of_the_request (lib := RefJwt.lib) host0
           (request [("accessToken", access_u1)])
           (request [("accessToken", access_u1); ("refreshToken", refresh_u2)])
           handler_ok fresh access_u1 {| jwt_id := "u1" |}); reflexivity.
Defined.

Lemma renewed_cookie_is_accepted_witness :
  exists r1 w1' w2',
    run [("refreshToken", refresh_u1)] handler_ok = (Returns r1, w1') /\
    (exists c, res_setCookie w1' = [c] /\
               cookie_name c = "accessToken" /\ cookie_value c = "u1.4600.ak") /\
    authMiddleware (lib := RefJwt.lib) host1 (request [("accessToken", "u1.4600.ak")])
      handler_ok fresh = (Returns None, w2') /\
    ctx_userId w2' = Some "u1" /\
    res_setCookie w2' = [] /\
    jwt_calls w2' = [VerifyCall "u1.4600.ak" "ak"].
Proof.
  apply (renewed_cookie_is_accepted (lib := RefJwt.lib) host0 host1
           (request [("refreshToken", refresh_u1)])
           (request [("accessToken", "u1.4600.ak")])
           handler_ok handler_ok fresh fresh refresh_u1 "u1.4600.ak" {| jwt_id := "u1" |});
    reflexivity.
Defined.

Lemma injectUser_without_subject_witness :
  exists s',
    injectUser host0 (request []) prisma0 "?" None (retA tt) app0
      = (Returns (Some {| status := 401; body := [("error", "Unauthorized")] |}), s') /\
    db_queries s' = [] /\ ctx_user s' = None /\ c_res s' = None /\
    logs_only host0 fresh (world s').
Proof.
  apply (injectUser_without_subject host0 (request []) prisma0 "?" None (retA tt) app0);
    reflexivity.
Defined.

Lemma injectUser_rethrows_unserialisable_witness :
  let s := with_world (with_userId (Some "u1") fresh) app0 in
  let circular := Some "Converting circular structure to JSON" in
  (exists s',
     injectUser host0 (request []) prisma0 "[object Object]" circular (throwA OtherValue) s
       = (Throws (TypeError "Converting circular structure to JSON"), s')) /\
  (exists s'',
     dispatch (injectUser host0 (request []) prisma0 "[object Object]" circular
                 (throwA OtherValue)) s = (Returns tt, s'') /\
     c_res s'' = Some {| status := 500; body := [("error", "Internal Server Error")] |}).
Proof.
  apply (injectUser_rethrows_unserialisable host0 (request []) prisma0 "[object Object]"
           (Some "Converting circular structure to JSON") (throwA OtherValue)
           (with_world (with_userId (Some "u1") fresh) app0) "u1" alice
           "Converting circular structure to JSON"); reflexivity.
Defined.

Lemma profile_by_access_token_witness :
  exists s',
    get_profile (lib := RefJwt.lib) host0 (request [("accessToken", access_u1)])
      prisma0 "?" None app0 = (Returns tt, s') /\
    c_res s' = Some {| status := 200; body := json_of_profile host0 alice |} /\
    ctx_user s' = Some alice /\
    db_queries s' = ["u1"] /\
    jwt_calls (world s') = [VerifyCall access_u1 "ak"] /\
    res_setCookie (world s') = [].
Proof.
  apply (profile_by_access_token (lib := RefJwt.lib) host0
           (request [("accessToken", access_u1)]) prisma0 "?" None app0
           access_u1 {| jwt_id := "u1" |}); reflexivity.
Defined.

Lemma profile_refused_without_valid_token_witness :
  exists s',
    get_profile (lib := RefJwt.lib) host0 (request [("accessToken", expired_u1)])
      prisma0 "?" None app0 = (Returns tt, s') /\
    c_res s' = Some {| status := 401; body := [("error", "Unauthorized")] |} /\
    db_queries s' = [] /\ ctx_user s' = None /\ res_setCookie (world s') = [].
Proof.
  apply (profile_refused_without_valid_token (lib := RefJwt.lib) host0
           (request [("accessToken", expired_u1)]) prisma0 "?" None app0); reflexivity.
Defined.

Lemma profile_by_refresh_token_witness :
  exists s',
    get_profile (lib := RefJwt.lib) host0
      (request [("accessToken", expired_u1); ("refreshToken", refresh_u2)])
      prisma0 "?" None app0 = (Returns tt, s') /\
    c_res s' = Some {| status := 404; body := [("error", "User not found")] |} /\
    ctx_user s' = None /\
    db_queries s' = ["u2"] /\
    res_setCookie (world s') =
      [{| cookie_name := "accessToken"; cookie_value := "u2.4600.ak";
          cookie_opts := cookieOptions.access |}].
Proof.
  apply (profile_by_refresh_token (lib := RefJwt.lib) host0
           (request [("accessToken", expired_u1); ("refreshToken", refresh_u2)])
           prisma0 "?" None app0 refresh_u2 {| jwt_id := "u2" |} "u2.4600.ak"); reflexivity.
Defined.

Lemma withUser_without_injection_witness :
  exists s',
    dispatch (withUser (fun _ => retA None)) app0 = (Returns tt, s') /\
    c_res s' = Some {| status := 500; body := [("error", "Internal Server Error")] |} /\
    ctx_user s' = None /\
    db_queries s' = [] /\
    fs (world s') = fs fresh /\
    console (world s') =
      [console_error
         "Error: User not found in context. Did you forget to use injectUser middleware?"].
Proof.
  apply (withUser_without_injection (fun _ => retA None) app0); reflexivity.
Defined.

Lemma login_session_is_accepted_witness :
  exists w',
    authMiddleware (lib := RefJwt.lib) host1 (request [("accessToken", access_u1)])
      handler_ok fresh = (Returns None, w') /\
    ctx_userId w' = Some "u1" /\
    res_setCookie w' = [] /\
    next_calls w' = [Some "u1"].
Proof.
  apply (login_session_is_accepted (lib := RefJwt.lib) host0 host1 find0 compare0
           "alice@example.com" "secret1" (access_u1, refresh_u1) alice_row
           (request [("accessToken", access_u1)]) handler_ok fresh);
    try reflexivity.
  intros t [= <-]. reflexivity.
Defined.

Lemma registered_refresh_token_renews_witness :
  exists r w' t,
    authMiddleware (lib := RefJwt.lib) host1 (request [("refreshToken", "u7.605800.rk")])
      handler_ok fresh = (Returns r, w') /\
    RefJwt.sign {| jwt_id := "u7" |} "ak" {| expiresIn := "1h" |} 2000 = Returns t /\
    ctx_userId w' = Some "u7" /\
    res_setCookie w' = [renewed_cookie t] /\
    (handler_ok 0 = Returns tt -> r = None).
Proof.
  apply (registered_refresh_token_renews (lib := RefJwt.lib) host0 host1 create0 hash0 bob
           {| registered_id := "u7"; registered_email := "bob@example.com";
              registered_createdAt := 1000500;
              registered_accessToken := "u7.4600.ak";
              registered_refreshToken := "u7.605800.rk" |}
           (request [("refreshToken", "u7.605800.rk")]) handler_ok fresh);
    try reflexivity.
  intros t [= <-]. reflexivity.
Defined.

Lemma missing_user_is_logged_twice_witness :
  let s := with_world (with_userId (Some "u5") fresh) app0 in
  let line :=
    log_line host0 lvl_warn "User injection failed - User not found" [("userId", "u5")] None in
  exists s',
    injectUser host0 (request []) prisma0 "?" None (retA tt) s
      = (Returns (Some {| status := 404; body := [("error", "User not found")] |}), s') /\
    file (world s') "/app/logs/2025-01-01-warn.log" = [line; line] /\
    file (world s') "/app/logs/2025-01-01-info.log" = [line; line] /\
    ctx_user s' = None /\
    db_queries s' = ["u5"].
Proof.
  apply (missing_user_is_logged_twice host0 (request []) prisma0 "?" None (retA tt)
           (with_world (with_userId (Some "u5") fresh) app0) "u5"); reflexivity.
Defined.

(** C9 fails as worded.  The request is admitted through a valid access
    token, a valid refresh token is present, and the handler behind the
    middleware raises an [Error].  hono hands the [Error] to [app.onError]
    and [next()] resolves: the [catch] of the middleware is not entered,
    the refresh token is not verified, no cookie is written; the handler
    has run once and the client gets the 500 of [app.onError]. *)
Lemma handler_error_is_answered_by_onError :
  let req := request [("accessToken", access_u1); ("refreshToken", refresh_u2)] in
  let handler : MA (option Response) :=
    liftA (console_print (console_error "handler runs")) ;;
    throwA (ErrorObject "boom") in
  let s' :=
    snd (dispatch (authMiddleware_with (lib := RefJwt.lib) host0 req (dispatch handler))
           app0) in
  fst (handler app0) = Throws (ErrorObject "boom") /\
  @jwt_verify RefJwt.lib access_u1 "ak" (clockTimestamp host0)
    = Returns {| jwt_id := "u1" |} /\
  @jwt_verify RefJwt.lib refresh_u2 "rk" (clockTimestamp host0)
    = Returns {| jwt_id := "u2" |} /\
  c_res s' = Some {| status := 500; body := [("error", "Internal Server Error")] |} /\
  jwt_calls (world s') = [VerifyCall access_u1 "ak"] /\
  res_setCookie (world s') = [] /\
  ctx_userId (world s') = Some "u1" /\
  console (world s') = [console_error "handler runs"; console_error "Error: boom"].
Proof. vm_compute. by repeat split. Qed.
End MoreScenarios.
